(** * Book list application: the Books store and the Books repository

    A shallow embedding of [src/Books/Books.controller.ts] (the MobX store
    built by [createBooksStore]) and of [src/Books/Books.repository.ts]
    ([generateUniqueId], [addBook], [getBooks], [getPrivateBooks]).

    The store's methods are asynchronous: they write fields of one shared
    store object, call the injected repository and suspend until the call
    settles.  They are embedded as terms of a small resumption monad
    [Prog]: a tree of store reads, effects in source order, and suspension
    points, one per [await repository.f(...)].  Two interpreters run such a
    tree: [run] drives it to completion against a repository (the view of a
    caller that awaits the method), [start] runs it up to its first
    suspension (the view of a caller that does not await, as [setViewType]
    does). *)

From Stdlib Require Import String List ZArith QArith Qround Bool DecimalString.
Import ListNotations.
Close Scope Q_scope.
Open Scope string_scope.
Open Scope list_scope.

Set Implicit Arguments.
Set Warnings "-register-all".

(** ** Values *)

(** A JavaScript value as the store and the repository can observe it:
    what [JSON.parse] yields, plus [undefined] and [NaN].  Numbers are
    exact rationals (the finite doubles are among them). *)
Inductive JsValue : Type :=
| JsUndefined
| JsNull
| JsBool (b : bool)
| JsNaN
| JsNumber (q : Q)
| JsString (s : string)
| JsArray (elems : list JsValue)
| JsObject (fields : list (string * JsValue)).

(** [types.ts]: [interface Book { id?: number; name: string; author: string }]. *)
Record Book : Type := mkBook {
  book_id : option Z;
  book_name : string;
  book_author : string
}.

Definition Book_value (b : Book) : JsValue :=
  JsObject
    (match book_id b with
     | Some i => [("id", JsNumber (inject_Z i))]
     | None => []
     end ++ [("name", JsString (book_name b)); ("author", JsString (book_author b))]).

(** JavaScript's ToBoolean. *)
Definition truthy (v : JsValue) : bool :=
  match v with
  | JsUndefined | JsNull | JsNaN => false
  | JsBool b => b
  | JsNumber q => negb (Qeq_bool q 0%Q)
  | JsString s => negb (s =? "")
  | JsArray _ | JsObject _ => true
  end.

(** [Array.isArray(v) ? v : []], as a list of elements. *)
Definition array_or_empty (v : JsValue) : list JsValue :=
  match v with
  | JsArray elems => elems
  | _ => []
  end.

(** What a [throw] or a rejected promise carries: an [Error] with its
    message, or any other value. *)
Inductive Thrown : Type :=
| ThrownError (message : string)
| ThrownValue (v : JsValue).

(** [err instanceof Error ? err.message : fallback]. *)
Definition message_or (fallback : string) (err : Thrown) : string :=
  match err with
  | ThrownError m => m
  | ThrownValue _ => fallback
  end.

(** A settled promise. *)
Inductive Outcome (A : Type) : Type :=
| Resolved (a : A)
| Rejected (t : Thrown).
Arguments Rejected {A} t.

(** ** The store's state ([BooksStore], data fields) *)

Record BooksState : Type := mkState {
  books : list JsValue;
  isLoading : bool;
  error : option string;
  viewType : string;
  privateBooksCount : nat
}.

(** The object literal passed to [makeAutoObservable]. *)
Definition initial_state : BooksState :=
  {| books := []; isLoading := false; error := None;
     viewType := "all"; privateBooksCount := 0 |}.

(** One assignment to a field of the store. *)
Inductive Write : Type :=
| SetBooks (l : list JsValue)
| SetIsLoading (b : bool)
| SetError (e : option string)
| SetViewType (v : string)
| SetPrivateBooksCount (n : nat).

Definition apply_write (w : Write) (s : BooksState) : BooksState :=
  match w with
  | SetBooks l =>
      {| books := l; isLoading := isLoading s; error := error s;
         viewType := viewType s; privateBooksCount := privateBooksCount s |}
  | SetIsLoading b =>
      {| books := books s; isLoading := b; error := error s;
         viewType := viewType s; privateBooksCount := privateBooksCount s |}
  | SetError e =>
      {| books := books s; isLoading := isLoading s; error := e;
         viewType := viewType s; privateBooksCount := privateBooksCount s |}
  | SetViewType v =>
      {| books := books s; isLoading := isLoading s; error := error s;
         viewType := v; privateBooksCount := privateBooksCount s |}
  | SetPrivateBooksCount n =>
      {| books := books s; isLoading := isLoading s; error := error s;
         viewType := viewType s; privateBooksCount := n |}
  end.

(** ** Effects and the resumption monad *)

(** The methods of the store. *)
Inductive Op : Type :=
| OpLoadBooks
| OpLoadPrivateBooksCount
| OpAddBook (name author : string)
| OpSetViewType (type : string)
| OpInit.

(** The methods of the [BooksRepository] interface. *)
Inductive RepoCall : Type :=
| GetBooks
| GetPrivateBooks
| AddBook (name author : string).

(** What an observer of the store can see, in the order it happens: a
    method of the store is entered (what a spy on the method counts), a
    field is assigned, the console is written, a repository method is
    called. *)
Inductive Event : Type :=
| EvEnter (o : Op)
| EvWrite (w : Write)
| EvConsoleError (label : string) (err : Thrown)
| EvConsoleDebug (label : string) (arg : string)
| EvCall (c : RepoCall).

Inductive Prog (A : Type) : Type :=
| Ret (a : A)
| Throw (t : Thrown)
| Get (k : BooksState -> Prog A)
| Emit (e : Event) (k : Prog A)
| Await (c : RepoCall) (k : Outcome JsValue -> Prog A).
Arguments Throw {A} t.

Fixpoint bind {A B : Type} (p : Prog A) (f : A -> Prog B) : Prog B :=
  match p with
  | Ret a => f a
  | Throw t => Throw t
  | Get k => Get (fun s => bind (k s) f)
  | Emit e k => Emit e (bind k f)
  | Await c k => Await c (fun o => bind (k o) f)
  end.

(** [try { p } catch (err) { h err }]. *)
Fixpoint try_catch {A : Type} (p : Prog A) (h : Thrown -> Prog A) : Prog A :=
  match p with
  | Ret a => Ret a
  | Throw t => h t
  | Get k => Get (fun s => try_catch (k s) h)
  | Emit e k => Emit e (try_catch k h)
  | Await c k => Await c (fun o => try_catch (k o) h)
  end.

(** [try { p } finally { f }]: [f] runs on both exits and the exit of [p]
    is kept (unless [f] throws itself). *)
Fixpoint try_finally {A : Type} (p : Prog A) (f : Prog unit) : Prog A :=
  match p with
  | Ret a => bind f (fun _ => Ret a)
  | Throw t => bind f (fun _ => Throw t)
  | Get k => Get (fun s => try_finally (k s) f)
  | Emit e k => Emit e (try_finally k f)
  | Await c k => Await c (fun o => try_finally (k o) f)
  end.

Declare Scope prog_scope.
Delimit Scope prog_scope with prog.
Notation "x <- p ;; q" := (bind p (fun x => q))
  (at level 61, p at next level, right associativity) : prog_scope.
Notation "p ;; q" := (bind p (fun _ => q))
  (at level 61, right associativity) : prog_scope.
Open Scope prog_scope.

Definition read : Prog BooksState := Get (fun s => Ret s).
Definition emit (e : Event) : Prog unit := Emit e (Ret tt).
Definition assign (w : Write) : Prog unit := emit (EvWrite w).
Definition enter (o : Op) : Prog unit := emit (EvEnter o).

(** [await repository.f(...)]: the call is made, the caller is suspended
    until it settles, and a rejection is rethrown at the [await]. *)
Definition await (c : RepoCall) : Prog JsValue :=
  Await c (fun o =>
    match o with
    | Resolved v => Ret v
    | Rejected t => Throw t
    end).

(** ** The store's methods ([createBooksStore]) *)

Module Store.

Definition loadBooks : Prog unit :=
  enter OpLoadBooks ;;
  assign (SetIsLoading true) ;;
  assign (SetError None) ;;
  try_finally
    (try_catch
       (store <- read ;;
        loadedBooks <-
          (if viewType store =? "all" then await GetBooks
           else if viewType store =? "private" then await GetPrivateBooks
           else Ret (JsArray [])) ;;
        assign (SetBooks (array_or_empty loadedBooks)))
       (fun err =>
          emit (EvConsoleError "Failed to load books:" err) ;;
          assign (SetError (Some (message_or "Failed to load books" err))) ;;
          assign (SetBooks [])))
    (assign (SetIsLoading false)).

Definition loadPrivateBooksCount : Prog unit :=
  enter OpLoadPrivateBooksCount ;;
  try_catch
    (privateBooksFromApi <- await GetPrivateBooks ;;
     let booksArray := array_or_empty privateBooksFromApi in
     assign (SetPrivateBooksCount (length booksArray)))
    (fun err =>
       emit (EvConsoleError "Failed to load private books count:" err) ;;
       assign (SetPrivateBooksCount 0)).

Definition addBook (name author : string) : Prog unit :=
  enter (OpAddBook name author) ;;
  if (name =? "") || (author =? "") then
    assign (SetError (Some "Book name and author cannot be empty."))
  else
    assign (SetIsLoading true) ;;
    assign (SetError None) ;;
    try_finally
      (try_catch
         (success <- await (AddBook name author) ;;
          if truthy success then
            loadBooks ;;
            loadPrivateBooksCount
          else
            Throw (ThrownError
                     "Repository returned false, book might not have been added."))
         (fun err =>
            emit (EvConsoleError "Failed to add book:" err) ;;
            assign (SetError (Some (message_or "Failed to add book" err)))))
      (assign (SetIsLoading false)).

Definition init : Prog unit :=
  enter OpInit ;;
  loadBooks ;;
  loadPrivateBooksCount.

End Store.

(** ** Running a method to completion against a repository *)

(** The injected [BooksRepository]: each method settles with some value
    (the interface promises [Book[]] and [boolean]; the store does not rely
    on it) or rejects, and may change the repository's own state [R]. *)
Record BooksRepository (R : Type) : Type := mkRepository {
  repo_getBooks : R -> Outcome JsValue * R;
  repo_getPrivateBooks : R -> Outcome JsValue * R;
  repo_addBook : string -> string -> R -> Outcome JsValue * R
}.

Definition answer {R : Type} (repo : BooksRepository R) (c : RepoCall) (r : R)
  : Outcome JsValue * R :=
  match c with
  | GetBooks => repo_getBooks repo r
  | GetPrivateBooks => repo_getPrivateBooks repo r
  | AddBook name author => repo_addBook repo name author r
  end.

Record Run (A R : Type) : Type := mkRun {
  result : Outcome A;
  final : BooksState;
  final_repo : R;
  trace : list Event
}.

Definition observe {A R : Type} (e : Event) (x : Run A R) : Run A R :=
  {| result := result x; final := final x; final_repo := final_repo x;
     trace := e :: trace x |}.

Definition apply_event (e : Event) (s : BooksState) : BooksState :=
  match e with
  | EvWrite w => apply_write w s
  | _ => s
  end.

(** [await method()]: every suspension is resumed with what the repository
    answers, until the method returns or throws. *)
Fixpoint run {A R : Type} (repo : BooksRepository R) (p : Prog A)
  (s : BooksState) (r : R) : Run A R :=
  match p with
  | Ret a => {| result := Resolved a; final := s; final_repo := r; trace := [] |}
  | Throw t => {| result := Rejected t; final := s; final_repo := r; trace := [] |}
  | Get k => run repo (k s) s r
  | Emit e k => observe e (run repo k (apply_event e s) r)
  | Await c k =>
      observe (EvCall c)
        (run repo (k (fst (answer repo c r))) s (snd (answer repo c r)))
  end.

(** Projections of a trace. *)
Fixpoint calls (t : list Event) : list RepoCall :=
  match t with
  | [] => []
  | EvCall c :: t' => c :: calls t'
  | _ :: t' => calls t'
  end.

Fixpoint entered (t : list Event) : list Op :=
  match t with
  | [] => []
  | EvEnter o :: t' => o :: entered t'
  | _ :: t' => entered t'
  end.

Fixpoint writes (t : list Event) : list Write :=
  match t with
  | [] => []
  | EvWrite w :: t' => w :: writes t'
  | _ :: t' => writes t'
  end.

Definition writes_isLoading (w : Write) : bool :=
  match w with SetIsLoading _ => true | _ => false end.

Definition writes_error (w : Write) : bool :=
  match w with SetError _ => true | _ => false end.

(** ** Starting a method without awaiting it *)

(** Where a started method stands when control comes back to its caller:
    finished, or suspended on a repository call with the rest of its body
    waiting for the outcome. *)
Inductive Status : Type :=
| Finished (o : Outcome unit)
| Suspended (c : RepoCall) (k : Outcome JsValue -> Prog unit).

Record Started : Type := mkStarted {
  reached : BooksState;
  seen : list Event;
  status : Status
}.

Definition saw (e : Event) (x : Started) : Started :=
  {| reached := reached x; seen := e :: seen x; status := status x |}.

(** [method()] not awaited: the body runs up to its first [await]; the
    repository call of that [await] has been made. *)
Fixpoint start (p : Prog unit) (s : BooksState) : Started :=
  match p with
  | Ret a => {| reached := s; seen := []; status := Finished (Resolved a) |}
  | Throw t => {| reached := s; seen := []; status := Finished (Rejected t) |}
  | Get k => start (k s) s
  | Emit e k => saw e (start k (apply_event e s))
  | Await c k => {| reached := s; seen := [EvCall c]; status := Suspended c k |}
  end.

(** A repository call in flight and the continuation waiting for it. *)
Record Pending : Type := mkPending {
  awaited : RepoCall;
  resume : Outcome JsValue -> Prog unit
}.

Definition pending_of (x : Status) : list Pending :=
  match x with
  | Finished _ => []
  | Suspended c k => [{| awaited := c; resume := k |}]
  end.

(** The store together with the calls in flight. *)
Record Config : Type := mkConfig {
  store : BooksState;
  pending : list Pending;
  log : list Event
}.

(** The call awaited by [p] settles with [o]: the continuation runs up to
    its next suspension, on the store as it is by then.  (A suspension is
    a repository call; the extra turns of the event loop that JavaScript
    takes when it awaits an already finished method are not counted.) *)
Definition settle (p : Pending) (o : Outcome JsValue) (s : BooksState) : Started :=
  start (resume p o) s.

Module Sync.

(** [setViewType] is not [async]: it returns as soon as both loads have
    been started. *)
Definition setViewType (type : string) (s : BooksState) : Config :=
  if (type =? "all") || (type =? "private") then
    if negb (viewType s =? type) then
      let s1 := apply_write (SetViewType type) s in
      let a := start Store.loadBooks s1 in
      let b := start Store.loadPrivateBooksCount (reached a) in
      {| store := reached b;
         pending := pending_of (status a) ++ pending_of (status b);
         log := EvEnter (OpSetViewType type) :: EvWrite (SetViewType type)
                  :: seen a ++ seen b |}
    else
      {| store := s; pending := []; log := [EvEnter (OpSetViewType type)] |}
  else
    {| store := s; pending := [];
       log := [EvEnter (OpSetViewType type);
               EvConsoleDebug "Invalid view type specified:" type] |}.

End Sync.

(** ** The repository ([Books.repository.ts]) *)

Module Repository.

(** The gateway's [get] and [post] as the repository sees them: the
    parsed body of the response ([null] for an empty body), or a
    rejection.  Every function below makes one gateway call.  [getBooks]
    and [getPrivateBooks] are what the two functions return; what they
    write to the console is [getBooks_console] and
    [getPrivateBooks_console]. *)
Definition GatewayGet : Type := string -> Outcome JsValue.
Definition GatewayPost : Type := string -> JsValue -> Outcome JsValue.

(** What one call left on the wire and what it returned. *)
Record Posted : Type := mkPosted {
  path : string;
  payload : JsValue;
  returned : Outcome JsValue
}.

(** [obj.status] on a value that is neither [null] nor [undefined]: the
    last field of that name of an object, [undefined] on anything else. *)
Definition get_field (name : string) (v : JsValue) : JsValue :=
  match v with
  | JsObject fields =>
      match find (fun kv => fst kv =? name) (rev fields) with
      | Some kv => snd kv
      | None => JsUndefined
      end
  | _ => JsUndefined
  end.

(** [v === "ok"]. *)
Definition is_ok (v : JsValue) : bool :=
  match v with
  | JsString s => s =? "ok"
  | _ => false
  end.

Definition getBooks (get : GatewayGet) : Outcome JsValue :=
  match get "/" with
  | Resolved booksDto => Resolved (JsArray (array_or_empty booksDto))
  | Rejected t => Rejected t
  end.

Definition getPrivateBooks (get : GatewayGet) : Outcome JsValue :=
  match get "/private" with
  | Resolved booksDto => Resolved (JsArray (array_or_empty booksDto))
  | Rejected _ => Resolved (JsArray [])
  end.

(** [Math.floor(Date.now() + Math.random() * 1000)], on the readings
    [now] of [Date.now()] (milliseconds, an integer) and [random] of
    [Math.random()] (in [0, 1)), in exact arithmetic.  The code computes
    in doubles and rounds the product and the sum: this is its result
    where both are exact, as for the readings of [first_add] and
    [second_add], and not for every reading (a sum rounded up to the next
    integer is floored to that integer). *)
Definition generateUniqueId (now : Z) (random : Q) : Z :=
  Qfloor (inject_Z now + random * 1000)%Q.

Definition addBook (now : Z) (random : Q) (post : GatewayPost) (name author : string)
  : Posted :=
  let id := generateUniqueId now random in
  let body :=
    JsObject [("id", JsNumber (inject_Z id)); ("name", JsString name);
              ("author", JsString author)] in
  {| path := "/";
     payload := body;
     returned :=
       match post "/" body with
       | Resolved bookAddDto =>
           Resolved
             (JsBool (truthy bookAddDto && is_ok (get_field "status" bookAddDto)))
       | Rejected t => Rejected t
       end |}.

(** The identifier a call of [addBook] put in its request. *)
Definition sent_id (p : Posted) : JsValue := get_field "id" (payload p).

(** What the two fetches write to the console: [getBooks] the body it
    received, with [console.log]; [getPrivateBooks] the error of a
    rejected request, with [console.error], in its [catch]. *)
Definition getBooks_console (get : GatewayGet) : list (string * JsValue) :=
  match get "/" with
  | Resolved booksDto => [("booksDto", booksDto)]
  | Rejected _ => []
  end.

Definition getPrivateBooks_console (get : GatewayGet) : list (string * Thrown) :=
  match get "/private" with
  | Resolved _ => []
  | Rejected error => [("Error fetching private books:", error)]
  end.

End Repository.

(** ** Properties of traces *)

(** The first thing the method does after it is entered is to set
    [isLoading] to true. *)
Fixpoint starts_loading (t : list Event) : bool :=
  match t with
  | EvEnter _ :: t' => starts_loading t'
  | EvWrite (SetIsLoading true) :: _ => true
  | _ => false
  end.

(** The last thing the method does is to set [isLoading] to false. *)
Definition ends_loading (t : list Event) : bool :=
  match rev t with
  | EvWrite (SetIsLoading false) :: _ => true
  | _ => false
  end.

(** [error] is set to null before the repository is called and before any
    other value is written to [error]. *)
Fixpoint clears_error_first (t : list Event) : bool :=
  match t with
  | [] => false
  | EvWrite (SetError None) :: _ => true
  | EvWrite (SetError (Some _)) :: _ => false
  | EvCall _ :: _ => false
  | _ :: t' => clears_error_first t'
  end.

(** ** Test doubles *)

(** [n] books with identifiers [1..n]. *)
Definition numbered_books (n : nat) : list JsValue :=
  map (fun i => Book_value {| book_id := Some (Z.of_nat i);
                              book_name := "Book";
                              book_author := "Author" |})
      (seq 1 n).

(** A repository with fixed answers that counts the calls it receives. *)
Definition fixed_repository (all private added : Outcome JsValue)
  : BooksRepository nat :=
  {| repo_getBooks := fun n => (all, S n);
     repo_getPrivateBooks := fun n => (private, S n);
     repo_addBook := fun _ _ n => (added, S n) |}.

(** The repository of the add-book scenario: the add is accepted, there
    are five books in all and three private ones. *)
Definition accepting_repository : BooksRepository nat :=
  fixed_repository (Resolved (JsArray (numbered_books 5)))
                   (Resolved (JsArray (numbered_books 3)))
                   (Resolved (JsBool true)).

(** A store that shows an earlier failure. *)
Definition failed_state : BooksState :=
  {| books := []; isLoading := false; error := Some "Network Error";
     viewType := "all"; privateBooksCount := 0 |}.

(** A gateway that accepts every post. *)
Definition accepting_post : Repository.GatewayPost :=
  fun _ _ => Resolved (JsObject [("status", JsString "ok")]).

(** Two adds in the same millisecond, with [Math.random()] returning 0.25
    and then 0.25 + 2^-12 (all intermediate values are exact as doubles). *)
Definition first_add : Repository.Posted :=
  Repository.addBook 1700000000000 (1 # 4) accepting_post "Dune" "Herbert".

Definition second_add : Repository.Posted :=
  Repository.addBook 1700000000000 (1025 # 4096) accepting_post "Emma" "Austen".

(** A repository that fails: the list fetch rejects, the private fetch
    returns [null], the add is refused. *)
Definition failing_repository : BooksRepository nat :=
  fixed_repository (Rejected (ThrownError "Network Error"))
                   (Resolved JsNull)
                   (Resolved (JsBool false)).

(** The repository of the store's tests: four books in all, four private
    ones, every add accepted. *)
Definition test_repository : BooksRepository nat :=
  fixed_repository (Resolved (JsArray (numbered_books 4)))
                   (Resolved (JsArray (numbered_books 4)))
                   (Resolved (JsBool true)).

(** The store as [addBook] leaves it just before it calls the repository. *)
Definition about_to_add (s : BooksState) : BooksState :=
  apply_write (SetError None) (apply_write (SetIsLoading true) s).

(** ** Composition of runs *)

(** The run of [p] followed by the run of what comes after it. *)
Definition and_then {A B R : Type} (x : Run A R)
  (f : A -> BooksState -> R -> Run B R) : Run B R :=
  match result x with
  | Resolved a =>
      let y := f a (final x) (final_repo x) in
      {| result := result y; final := final y; final_repo := final_repo y;
         trace := trace x ++ trace y |}
  | Rejected t =>
      {| result := Rejected t; final := final x; final_repo := final_repo x;
         trace := trace x |}
  end.

(** The run of [p] followed by the run of a handler if [p] threw. *)
Definition or_else {A R : Type} (x : Run A R)
  (h : Thrown -> BooksState -> R -> Run A R) : Run A R :=
  match result x with
  | Resolved _ => x
  | Rejected t =>
      let y := h t (final x) (final_repo x) in
      {| result := result y; final := final y; final_repo := final_repo y;
         trace := trace x ++ trace y |}
  end.

(** The run of [p] followed by the run of a finalizer. *)
Definition at_last {A R : Type} (x : Run A R)
  (f : BooksState -> R -> Run unit R) : Run A R :=
  let y := f (final x) (final_repo x) in
  {| result := match result y with
               | Resolved _ => result x
               | Rejected t => Rejected t
               end;
     final := final y; final_repo := final_repo y;
     trace := trace x ++ trace y |}.

(** ** Exceptions outside the store *)

(** Code that only returns or throws, in the exception monad. *)
Definition and_next {A B : Type} (x : Outcome A) (f : A -> Outcome B) : Outcome B :=
  match x with
  | Resolved a => f a
  | Rejected t => Rejected t
  end.

(** [try { x } catch (e) { h e }]. *)
Definition catching {A : Type} (x : Outcome A) (h : Thrown -> Outcome A) : Outcome A :=
  match x with
  | Resolved a => Resolved a
  | Rejected t => h t
  end.

(** [s1 || s2] on strings: the first one unless it is empty. *)
Definition or_string (s1 s2 : string) : string :=
  if s1 =? "" then s2 else s1.

(** ** The HTTP gateway ([Shared/ApiGateway.ts], [Shared/config.ts]) *)

Module ApiGateway.

Definition USER_ID : string := "test-test-test".

Definition API_URL_BASE : string :=
  "https://tdd.demo.reaktivate.com/v1/books/" ++ USER_ID.

(** The arguments of a call of [fetch]: the URL and, for a post, the
    [init] object. *)
Record Request : Type := mkRequest {
  url : string;
  method : string;
  headers : list (string * string);
  body : option string
}.

(** What the gateway reads off a [Response]; [text] is the outcome of
    [await response.text()]. *)
Record Response : Type := mkResponse {
  ok : bool;
  status : nat;
  statusText : string;
  text : Outcome string
}.

(** A number in a template literal, for an HTTP status. *)
Definition show_status (n : nat) : string :=
  NilZero.string_of_uint (Nat.to_uint n).

Section Gateway.

(** The built-ins the gateway calls: [JSON.parse] (it returns or throws),
    [JSON.stringify], the conversion of a value to a string that
    [new Error(value)] applies, and the message of the [TypeError] raised
    by reading a property of [null]. *)
Variable parse : string -> Outcome JsValue.
Variable stringify : JsValue -> string.
Variable toString : JsValue -> string.
Variable type_error_message : string.

(** [fetch], as one call of the gateway sees it. *)
Variable fetch : Request -> Outcome Response.

(** [value.name]: a [TypeError] on [null] and [undefined]. *)
Definition member (value : JsValue) (name : string) : Outcome JsValue :=
  match value with
  | JsNull | JsUndefined => Rejected (ThrownError type_error_message)
  | _ => Resolved (Repository.get_field name value)
  end.

(** [new Error(message)]. *)
Definition new_Error (message : JsValue) : Thrown :=
  ThrownError match message with
              | JsString s => s
              | JsUndefined => ""
              | other => toString other
              end.

(** [a || b]. *)
Definition or_value (a b : JsValue) : JsValue :=
  if truthy a then a else b.

(** The request of [get(path)] and of [post(path, payload)]. *)
Definition get_request (path : string) : Request :=
  {| url := API_URL_BASE ++ path; method := "GET"; headers := []; body := None |}.

Definition post_request (path : string) (payload : JsValue) : Request :=
  {| url := API_URL_BASE ++ path;
     method := "POST";
     headers := [("Content-Type", "application/json")];
     body := Some (stringify payload) |}.

(** [get]: the settled promise and what was written with
    [console.error]. *)
Definition get (path : string) : Outcome JsValue * list Thrown :=
  let attempt :=
    and_next (fetch (get_request path)) (fun response =>
    if negb (ok response) then
      and_next (text response) (fun errorText =>
      and_next
        (catching
           (and_next (parse errorText) (fun errorJson =>
            and_next (member errorJson "message") (fun message =>
            Resolved
              (or_value message
                 (JsString ("HTTP error " ++ show_status (status response)))))))
           (fun _ =>
              Resolved
                (JsString
                   ("HTTP error " ++ show_status (status response) ++ ": "
                    ++ or_string (statusText response)
                         (or_string errorText "Unknown error")))))
        (fun errorMessage => Rejected (new_Error errorMessage)))
    else
      and_next (text response) (fun text =>
      if negb (text =? "") then parse text else Resolved JsNull)) in
  match attempt with
  | Resolved result => (Resolved result, [])
  | Rejected error => (Rejected error, [error])
  end.

Definition post (path : string) (payload : JsValue) : Outcome JsValue :=
  and_next (fetch (post_request path payload)) (fun response =>
  if negb (ok response) then
    and_next (text response) (fun errorText =>
    and_next
      (catching
         (and_next (parse errorText) (fun errorJson =>
          and_next (member errorJson "message") (fun message =>
          Resolved
            (or_value message
               (JsString ("HTTP error " ++ show_status (status response)))))))
         (fun _ =>
            Resolved
              (JsString
                 ("HTTP error " ++ show_status (status response) ++ ": "
                  ++ or_string (statusText response)
                       (or_string errorText "Unknown error")))))
      (fun errorMessage => Rejected (new_Error errorMessage)))
  else
    and_next (text response) (fun text =>
    if negb (text =? "") then parse text else Resolved JsNull)).

End Gateway.

End ApiGateway.

(** ** The store of the application ([booksStore]) *)

(** The gateway as the repository uses it over time: each call may change
    the state [G] of the network and the server behind it; [Date.now()]
    and [Math.random()] are read off the same state. *)
Record Gateway (G : Type) : Type := mkGateway {
  gateway_get : string -> G -> Outcome JsValue * G;
  gateway_post : string -> JsValue -> G -> Outcome JsValue * G;
  gateway_now : G -> Z;
  gateway_random : G -> Q
}.

(** [import * as booksRepository from "./Books.repository"]: the functions
    of the repository as the [BooksRepository] the store is created with
    ([createBooksStore(booksRepository)]). *)
Definition booksRepository {G : Type} (gw : Gateway G) : BooksRepository G :=
  {| repo_getBooks := fun g =>
       (Repository.getBooks (fun path => fst (gateway_get gw path g)),
        snd (gateway_get gw "/" g));
     repo_getPrivateBooks := fun g =>
       (Repository.getPrivateBooks (fun path => fst (gateway_get gw path g)),
        snd (gateway_get gw "/private" g));
     repo_addBook := fun name author g =>
       let sent :=
         Repository.addBook (gateway_now gw g) (gateway_random gw g)
           (fun path payload => fst (gateway_post gw path payload g))
           name author in
       (Repository.returned sent,
        snd (gateway_post gw (Repository.path sent) (Repository.payload sent) g)) |}.

(** The gateway of [ApiGateway.ts] over a server: [serve] answers one
    [fetch]. *)
Definition http_gateway {G : Type}
  (parse : string -> Outcome JsValue) (stringify toString : JsValue -> string)
  (type_error_message : string)
  (serve : ApiGateway.Request -> G -> Outcome ApiGateway.Response * G)
  (now : G -> Z) (random : G -> Q) : Gateway G :=
  {| gateway_get := fun path g =>
       (fst (ApiGateway.get parse toString type_error_message
               (fun request => fst (serve request g)) path),
        snd (serve (ApiGateway.get_request path) g));
     gateway_post := fun path payload g =>
       (ApiGateway.post parse stringify toString type_error_message
          (fun request => fst (serve request g)) path payload,
        snd (serve (ApiGateway.post_request stringify path payload) g));
     gateway_now := now;
     gateway_random := random |}.

(** What a trace holds of [console.error]. *)
Fixpoint console_errors (t : list Event) : list (string * Thrown) :=
  match t with
  | [] => []
  | EvConsoleError label err :: t' => (label, err) :: console_errors t'
  | _ :: t' => console_errors t'
  end.

(** ** Several methods in flight *)

(** Nothing in flight. *)
Definition idle (s : BooksState) : Config :=
  {| store := s; pending := []; log := [] |}.

(** [method()] called and not awaited while other calls are in flight. *)
Definition spawn (p : Prog unit) (c : Config) : Config :=
  let x := start p (store c) in
  {| store := reached x;
     pending := pending c ++ pending_of (status x);
     log := log c ++ seen x |}.

(** [store.setViewType(type)] while other calls are in flight. *)
Definition switch_view (type : string) (c : Config) : Config :=
  let c' := Sync.setViewType type (store c) in
  {| store := store c';
     pending := pending c ++ pending c';
     log := log c ++ log c' |}.

Fixpoint without {A : Type} (i : nat) (l : list A) : list A :=
  match l, i with
  | [], _ => []
  | _ :: l', O => l'
  | a :: l', S i' => a :: without i' l'
  end.

(** The [i]-th call in flight settles with [o]: the method waiting for it
    goes on, on the store as it is now, up to its next [await] or its
    end. *)
Definition settle_nth (i : nat) (o : Outcome JsValue) (c : Config) : Config :=
  match nth_error (pending c) i with
  | None => c
  | Some p =>
      let x := settle p o (store c) in
      {| store := reached x;
         pending := without i (pending c) ++ pending_of (status x);
         log := log c ++ seen x |}
  end.

(** ** The view ([Books/BooksView.tsx]) *)

Module BooksView.

(** The component's local state. *)
Record Inputs : Type := mkInputs {
  newBookName : string;
  newBookAuthor : string
}.

(** [<div key={book.id || i}>{book.author}: {book.name}</div>]. *)
Record Row : Type := mkRow {
  key : JsValue;
  author : JsValue;
  name : JsValue
}.

Inductive Listing : Type :=
| NoBooksFound
| Rows (rows : list Row).

(** What the component returns: which view button is shown active, the
    two banners, the list, the two inputs and the Add button. *)
Record Screen : Type := mkScreen {
  all_active : bool;
  private_active : bool;
  loading_banner : bool;
  error_banner : option string;
  listing : option Listing;
  name_input : string;
  author_input : string;
  add_disabled : bool
}.

Section View.

(** The message of the [TypeError] raised by reading a property of
    [null]. *)
Variable type_error_message : string.

(** [book.name] on an element of [books]. *)
Definition property (book : JsValue) (name : string) : Outcome JsValue :=
  match book with
  | JsNull | JsUndefined => Rejected (ThrownError type_error_message)
  | _ => Resolved (Repository.get_field name book)
  end.

Definition row (i : nat) (book : JsValue) : Outcome Row :=
  and_next (property book "id") (fun id =>
  and_next (property book "author") (fun author =>
  and_next (property book "name") (fun name =>
  Resolved {| key := if truthy id then id else JsNumber (inject_Z (Z.of_nat i));
              author := author;
              name := name |}))).

(** [books.map((book, i) => ...)], from index [i]. *)
Fixpoint rows_from (i : nat) (books : list JsValue) : Outcome (list Row) :=
  match books with
  | [] => Resolved []
  | book :: rest =>
      and_next (row i book) (fun first =>
      and_next (rows_from (S i) rest) (fun others =>
      Resolved (first :: others)))
  end.

(** [booksStore.error && ...]: shown for a non-empty message. *)
Definition shown_error (e : option string) : option string :=
  match e with
  | Some message => if message =? "" then None else Some message
  | None => None
  end.

(** The body of the component: it returns the screen, or throws. *)
Definition render (s : BooksState) (inputs : Inputs) : Outcome Screen :=
  and_next
    (if negb (isLoading s)
        && match shown_error (error s) with None => true | Some _ => false end
     then
       match books s with
       | [] => Resolved (Some NoBooksFound)
       | _ => and_next (rows_from 0 (books s)) (fun rows => Resolved (Some (Rows rows)))
       end
     else Resolved None)
    (fun listing =>
       Resolved
         {| all_active := viewType s =? "all";
            private_active := viewType s =? "private";
            loading_banner := isLoading s;
            error_banner := shown_error (error s);
            listing := listing;
            name_input := newBookName inputs;
            author_input := newBookAuthor inputs;
            add_disabled := isLoading s |}).

End View.

(** [handleNameChange] and [handleAuthorChange]. *)
Definition handleNameChange (value : string) (inputs : Inputs) : Inputs :=
  {| newBookName := value; newBookAuthor := newBookAuthor inputs |}.

Definition handleAuthorChange (value : string) (inputs : Inputs) : Inputs :=
  {| newBookName := newBookName inputs; newBookAuthor := value |}.

(** [handleAddBook]: the add is started and not awaited, then both inputs
    are cleared. *)
Definition handleAddBook (c : Config) (inputs : Inputs) : Config * Inputs :=
  (spawn (Store.addBook (newBookName inputs) (newBookAuthor inputs)) c,
   {| newBookName := ""; newBookAuthor := "" |}).

End BooksView.

(** ** More test doubles *)

(** A gateway with fixed answers that counts the requests; the clock and
    the random draw are fixed too. *)
Definition fixed_gateway (fetched posted : Outcome JsValue) : Gateway nat :=
  {| gateway_get := fun _ n => (fetched, S n);
     gateway_post := fun _ _ n => (posted, S n);
     gateway_now := fun _ => 1700000000000%Z;
     gateway_random := fun _ => (1 # 4)%Q |}.

(** No network: every request rejects. *)
Definition offline_gateway : Gateway nat :=
  fixed_gateway (Rejected (ThrownError "Failed to fetch"))
                (Rejected (ThrownError "Failed to fetch")).

(** A server that answers every add with [{status: "error"}]. *)
Definition refusing_gateway : Gateway nat :=
  fixed_gateway (Resolved (JsArray []))
                (Resolved (JsObject [("status", JsString "error")])).

(** A stand-in for [JSON.parse] that knows the texts of a table and throws
    on every other one. *)
Definition parse_table (table : list (string * JsValue)) (text : string)
  : Outcome JsValue :=
  match find (fun entry => fst entry =? text) table with
  | Some entry => Resolved (snd entry)
  | None => Rejected (ThrownError "Unexpected token")
  end.

(** Stand-ins for [JSON.stringify] and for the conversion to a string. *)
Definition no_text (_ : JsValue) : string := "".

(** A server that answers every request with the same response. *)
Definition fixed_fetch (response : Outcome ApiGateway.Response)
  : ApiGateway.Request -> Outcome ApiGateway.Response :=
  fun _ => response.

Definition not_found : ApiGateway.Response :=
  {| ApiGateway.ok := false; ApiGateway.status := 404;
     ApiGateway.statusText := "Not Found";
     ApiGateway.text := Resolved "no such user" |}.

Definition empty_ok : ApiGateway.Response :=
  {| ApiGateway.ok := true; ApiGateway.status := 200;
     ApiGateway.statusText := "OK";
     ApiGateway.text := Resolved "" |}.

(** The row of a book of type [Book] at index [i]. *)
Definition row_of_book (i : nat) (b : Book) : BooksView.Row :=
  {| BooksView.key :=
       match book_id b with
       | Some id => if Qeq_bool (inject_Z id) 0 then JsNumber (inject_Z (Z.of_nat i))
                    else JsNumber (inject_Z id)
       | None => JsNumber (inject_Z (Z.of_nat i))
       end;
     BooksView.author := JsString (book_author b);
     BooksView.name := JsString (book_name b) |}.

Fixpoint rows_of_books (i : nat) (bs : list Book) : list BooksView.Row :=
  match bs with
  | [] => []
  | b :: rest => row_of_book i b :: rows_of_books (S i) rest
  end.

(** A store that shows three books, and the inputs of a half-filled form. *)
Definition showing_three : BooksState :=
  {| books := numbered_books 3; isLoading := false; error := None;
     viewType := "all"; privateBooksCount := 3 |}.

Definition name_only : BooksView.Inputs :=
  {| BooksView.newBookName := "Dune"; BooksView.newBookAuthor := "" |}.

Definition filled_form : BooksView.Inputs :=
  {| BooksView.newBookName := "Dune"; BooksView.newBookAuthor := "Herbert" |}.

Definition three_books : list Book :=
  map (fun i => {| book_id := Some (Z.of_nat i);
                   book_name := "Book";
                   book_author := "Author" |})
      (seq 1 3).

(** What the view shows for [showing_three] and [name_only]. *)
Definition three_rows_screen : BooksView.Screen :=
  {| BooksView.all_active := true;
     BooksView.private_active := false;
     BooksView.loading_banner := false;
     BooksView.error_banner := None;
     BooksView.listing := Some (BooksView.Rows (rows_of_books 0 three_books));
     BooksView.name_input := "Dune";
     BooksView.author_input := "";
     BooksView.add_disabled := false |}.

(** A store whose list has a [null] in it. *)
Definition null_entry : BooksState :=
  {| books := numbered_books 2 ++ [JsNull]; isLoading := false; error := None;
     viewType := "all"; privateBooksCount := 0 |}.

(** A repository whose list fetch rejects with an [Error] that has no
    message. *)
Definition mute_repository : BooksRepository nat :=
  fixed_repository (Rejected (ThrownError ""))
                   (Resolved (JsArray []))
                   (Resolved (JsBool true)).

(** * Lemmas *)

Ltac split_all := repeat match goal with |- _ /\ _ => split end.

Section RunLemmas.

Variable R : Type.
Variable repo : BooksRepository R.

Lemma run_eta (A : Type) (x : Run A R) :
  {| result := result x; final := final x; final_repo := final_repo x;
     trace := trace x |} = x.
Proof. destruct x; reflexivity. Qed.

Lemma run_bind (A B : Type) (p : Prog A) (f : A -> Prog B) :
  forall s r,
    run repo (bind p f) s r
    = and_then (run repo p s r) (fun a => run repo (f a)).
Proof.
  induction p as [a | t | k IH | e k IH | c k IH]; intros s r; simpl.
  - unfold and_then; simpl. symmetry; apply run_eta.
  - reflexivity.
  - apply IH.
  - rewrite IH. unfold and_then, observe; simpl.
    destruct (run repo k (apply_event e s) r) as [[a | t] fs fr tr];
      reflexivity.
  - rewrite IH. unfold and_then, observe; simpl.
    destruct (run repo (k (fst (answer repo c r))) s (snd (answer repo c r)))
      as [[a | t] fs fr tr]; reflexivity.
Qed.

Lemma run_try_catch (A : Type) (p : Prog A) (h : Thrown -> Prog A) :
  forall s r,
    run repo (try_catch p h) s r
    = or_else (run repo p s r) (fun t => run repo (h t)).
Proof.
  induction p as [a | t | k IH | e k IH | c k IH]; intros s r; simpl.
  - reflexivity.
  - unfold or_else; simpl. symmetry; apply run_eta.
  - apply IH.
  - rewrite IH. unfold or_else, observe; simpl.
    destruct (run repo k (apply_event e s) r) as [[a | t] fs fr tr];
      reflexivity.
  - rewrite IH. unfold or_else, observe; simpl.
    destruct (run repo (k (fst (answer repo c r))) s (snd (answer repo c r)))
      as [[a | t] fs fr tr]; reflexivity.
Qed.

Lemma run_try_finally (A : Type) (p : Prog A) (f : Prog unit) :
  forall s r,
    run repo (try_finally p f) s r
    = at_last (run repo p s r) (run repo f).
Proof.
  induction p as [a | t | k IH | e k IH | c k IH]; intros s r; simpl.
  - rewrite run_bind. unfold and_then, at_last; simpl.
    destruct (result (run repo f s r)); simpl; try reflexivity.
    now rewrite app_nil_r.
  - rewrite run_bind. unfold and_then, at_last; simpl.
    destruct (result (run repo f s r)); simpl; try reflexivity.
    now rewrite app_nil_r.
  - apply IH.
  - rewrite IH. reflexivity.
  - rewrite IH. reflexivity.
Qed.

End RunLemmas.

(** ** The two loads *)

Section Loads.

Variable R : Type.
Variable repo : BooksRepository R.

(** Neither load lets an exception escape: every failure of the
    repository is caught inside. *)
Lemma loadBooks_resolves (s : BooksState) (r : R) :
  result (run repo Store.loadBooks s r) = Resolved tt.
Proof.
  unfold Store.loadBooks; cbn.
  destruct (viewType s =? "all"); cbn.
  - destruct (repo_getBooks repo r) as [[v | t] r1]; reflexivity.
  - destruct (viewType s =? "private"); cbn; [| reflexivity].
    destruct (repo_getPrivateBooks repo r) as [[v | t] r1]; reflexivity.
Qed.

Lemma loadPrivateBooksCount_resolves (s : BooksState) (r : R) :
  result (run repo Store.loadPrivateBooksCount s r) = Resolved tt.
Proof.
  unfold Store.loadPrivateBooksCount; cbn.
  destruct (repo_getPrivateBooks repo r) as [[v | t] r1]; reflexivity.
Qed.

(** C1. [loadBooks()] in view mode "all" calls [getBooks] once and
    nothing else, in view mode "private" it calls [getPrivateBooks] once
    and nothing else.  If the call resolves to an array, [books] is that
    array and [error] is null; if it resolves to anything else, [books]
    is empty and [error] is null; if it rejects, [books] is empty and
    [error] is the message of the thrown [Error], or "Failed to load
    books" when the thrown value is not an [Error].  In every case
    [isLoading] is false when the method completes, and the method
    itself does not throw. *)
Theorem loadBooks_matches_viewType (s : BooksState) (r : R) :
  viewType s = "all" \/ viewType s = "private" ->
  let c := if viewType s =? "all" then GetBooks else GetPrivateBooks in
  let x := run repo Store.loadBooks s r in
  (viewType s = "all" -> calls (trace x) = [GetBooks]) /\
  (viewType s = "private" -> calls (trace x) = [GetPrivateBooks]) /\
  final_repo x = snd (answer repo c r) /\
  result x = Resolved tt /\
  isLoading (final x) = false /\
  viewType (final x) = viewType s /\
  privateBooksCount (final x) = privateBooksCount s /\
  match fst (answer repo c r) with
  | Resolved (JsArray loaded) =>
      books (final x) = loaded /\ error (final x) = None
  | Resolved _ =>
      books (final x) = [] /\ error (final x) = None
  | Rejected (ThrownError message) =>
      books (final x) = [] /\ error (final x) = Some message
  | Rejected (ThrownValue _) =>
      books (final x) = [] /\ error (final x) = Some "Failed to load books"
  end.
Proof.
  destruct s as [bs ld er vt pc]; simpl.
  intros [-> | ->]; cbn.
  - destruct (repo_getBooks repo r) as [[v | t] r1]; cbn.
    + destruct v; split_all; try reflexivity; discriminate.
    + destruct t; split_all; try reflexivity; discriminate.
  - destruct (repo_getPrivateBooks repo r) as [[v | t] r1]; cbn.
    + destruct v; split_all; try reflexivity; discriminate.
    + destruct t; split_all; try reflexivity; discriminate.
Qed.

(** C6. [loadPrivateBooksCount()] calls [getPrivateBooks] once; if the
    call resolves to an array, [privateBooksCount] is its length; if it
    resolves to anything else or rejects, [privateBooksCount] is 0.  The
    method writes no other field: [error], [books], [isLoading] and
    [viewType] are as they were, so a failure is not surfaced in
    [error]. *)
Theorem loadPrivateBooksCount_counts (s : BooksState) (r : R) :
  let x := run repo Store.loadPrivateBooksCount s r in
  calls (trace x) = [GetPrivateBooks] /\
  result x = Resolved tt /\
  privateBooksCount (final x)
  = match fst (repo_getPrivateBooks repo r) with
    | Resolved (JsArray privateBooks) => length privateBooks
    | _ => 0
    end /\
  writes (trace x) = [SetPrivateBooksCount (privateBooksCount (final x))] /\
  error (final x) = error s /\
  books (final x) = books s /\
  isLoading (final x) = isLoading s /\
  viewType (final x) = viewType s.
Proof.
  cbn.
  destruct (repo_getPrivateBooks repo r) as [[v | t] r1]; cbn.
  - destruct v; split_all; reflexivity.
  - split_all; reflexivity.
Qed.

End Loads.

(** ** Adding a book *)

Lemma entered_app (t u : list Event) : entered (t ++ u) = entered t ++ entered u.
Proof.
  induction t as [| e t IH]; simpl; [reflexivity |].
  destruct e; simpl; now rewrite IH.
Qed.

Lemma nonempty_eqb (x : string) : x <> "" -> (x =? "") = false.
Proof. intro H. now apply eqb_neq. Qed.

Lemma empty_guard (name author : string) :
  name = "" \/ author = "" -> (name =? "") || (author =? "") = true.
Proof.
  intros [-> | ->]; [reflexivity |]. apply orb_true_r.
Qed.

Section AddBook.

Variable R : Type.
Variable repo : BooksRepository R.

Lemma loadBooks_entered (s : BooksState) (r : R) :
  entered (trace (run repo Store.loadBooks s r)) = [OpLoadBooks].
Proof.
  unfold Store.loadBooks; cbn.
  destruct (viewType s =? "all"); cbn.
  - destruct (repo_getBooks repo r) as [[v | t] r1]; reflexivity.
  - destruct (viewType s =? "private"); cbn; [| reflexivity].
    destruct (repo_getPrivateBooks repo r) as [[v | t] r1]; reflexivity.
Qed.

Lemma loadPrivateBooksCount_entered (s : BooksState) (r : R) :
  entered (trace (run repo Store.loadPrivateBooksCount s r))
  = [OpLoadPrivateBooksCount].
Proof.
  unfold Store.loadPrivateBooksCount; cbn.
  destruct (repo_getPrivateBooks repo r) as [[v | t] r1]; reflexivity.
Qed.

(** The whole run of an accepted add, in terms of the runs of the two
    loads it awaits. *)
Lemma run_addBook_accepted (s : BooksState) (r : R) (name author : string)
  (success : JsValue) (r1 : R) :
  name <> "" -> author <> "" ->
  repo_addBook repo name author r = (Resolved success, r1) ->
  truthy success = true ->
  let load := run repo Store.loadBooks (about_to_add s) r1 in
  let count :=
    run repo Store.loadPrivateBooksCount (final load) (final_repo load) in
  run repo (Store.addBook name author) s r
  = {| result := Resolved tt;
       final := apply_write (SetIsLoading false) (final count);
       final_repo := final_repo count;
       trace :=
         [EvEnter (OpAddBook name author); EvWrite (SetIsLoading true);
          EvWrite (SetError None); EvCall (AddBook name author)]
         ++ trace load ++ trace count ++ [EvWrite (SetIsLoading false)] |}.
Proof.
  intros Hn Ha Hadd Hv load count.
  assert (HL : result load = Resolved tt) by apply loadBooks_resolves.
  assert (HC : result count = Resolved tt)
    by apply loadPrivateBooksCount_resolves.
  apply nonempty_eqb in Hn, Ha.
  unfold Store.addBook. rewrite Hn, Ha.
  cbn [orb enter assign emit bind run observe apply_event].
  cbn [try_finally try_catch bind await].
  cbn [run answer]. rewrite Hadd.
  cbn [fst snd bind try_catch try_finally]. rewrite Hv.
  rewrite run_try_finally, run_try_catch, run_bind.
  fold (about_to_add s). fold load.
  unfold and_then. rewrite HL. fold count.
  unfold or_else. cbn [result]. rewrite HC.
  unfold at_last, observe.
  cbn [final final_repo trace run assign emit observe apply_event result].
  rewrite <- app_assoc. reflexivity.
Qed.

End AddBook.

Section AddBookClaims.

Variable R : Type.
Variable repo : BooksRepository R.

(** C2. When name and author are non-empty and [repository.addBook]
    resolves to a truthy value, [addBook(name, author)] runs [loadBooks()]
    once and then [loadPrivateBooksCount()] once, each to completion
    before the next step: its trace is its own prologue, the whole run of
    [loadBooks], the whole run of [loadPrivateBooksCount] from where
    [loadBooks] ended, and the final reset of [isLoading].  In view mode
    "all", if the repository then answers the list fetch with an array
    and the private fetch with an array, the store ends with [books] the
    first array, [privateBooksCount] the length of the second, [error]
    null and [isLoading] false (with arrays of 5 and 3 books this is the
    Dune scenario).  In view mode "private" both loads use the private
    fetch: [books] is what its first call returns and
    [privateBooksCount] the length of what its second call returns. *)
Theorem addBook_success_reloads (s : BooksState) (r : R) (name author : string)
  (success : JsValue) (r1 : R) :
  name <> "" -> author <> "" ->
  repo_addBook repo name author r = (Resolved success, r1) ->
  truthy success = true ->
  let load := run repo Store.loadBooks (about_to_add s) r1 in
  let count :=
    run repo Store.loadPrivateBooksCount (final load) (final_repo load) in
  let x := run repo (Store.addBook name author) s r in
  entered (trace x)
  = [OpAddBook name author; OpLoadBooks; OpLoadPrivateBooksCount] /\
  trace x
  = [EvEnter (OpAddBook name author); EvWrite (SetIsLoading true);
     EvWrite (SetError None); EvCall (AddBook name author)]
    ++ trace load ++ trace count ++ [EvWrite (SetIsLoading false)] /\
  final x = apply_write (SetIsLoading false) (final count) /\
  final_repo x = final_repo count /\
  result x = Resolved tt /\
  (forall (all private : list JsValue) (r2 r3 : R),
      viewType s = "all" ->
      repo_getBooks repo r1 = (Resolved (JsArray all), r2) ->
      repo_getPrivateBooks repo r2 = (Resolved (JsArray private), r3) ->
      books (final x) = all /\
      privateBooksCount (final x) = length private /\
      error (final x) = None /\
      isLoading (final x) = false) /\
  (forall (shown counted : list JsValue) (r2 r3 : R),
      viewType s = "private" ->
      repo_getPrivateBooks repo r1 = (Resolved (JsArray shown), r2) ->
      repo_getPrivateBooks repo r2 = (Resolved (JsArray counted), r3) ->
      books (final x) = shown /\
      privateBooksCount (final x) = length counted /\
      error (final x) = None /\
      isLoading (final x) = false).
Proof.
  intros Hn Ha Hadd Hv load count x.
  assert (Hx : x = _) by exact (run_addBook_accepted repo s r Hn Ha Hadd Hv).
  fold load in Hx. fold count in Hx. rewrite Hx. cbn [trace final final_repo result].
  split_all; try reflexivity.
  - rewrite !entered_app. unfold load, count.
    rewrite loadBooks_entered, loadPrivateBooksCount_entered. reflexivity.
  - intros all private r2 r3 Hall Hget Hpriv.
    unfold count, load, about_to_add, Store.loadBooks. cbn.
    rewrite Hall. cbn. rewrite Hget. cbn. rewrite Hpriv. cbn.
    split_all; reflexivity.
  - intros shown counted r2 r3 Hmode Hshown Hcounted.
    unfold count, load, about_to_add, Store.loadBooks. cbn.
    rewrite Hmode. cbn. rewrite Hshown. cbn. rewrite Hcounted. cbn.
    split_all; reflexivity.
Qed.

(** C4. When the name or the author is empty, [addBook(name, author)]
    does one thing: it sets [error] to "Book name and author cannot be
    empty.".  The repository is not called, its add operation in
    particular, and the method returns at once. *)
Theorem addBook_empty_rejected (s : BooksState) (r : R) (name author : string) :
  name = "" \/ author = "" ->
  let x := run repo (Store.addBook name author) s r in
  trace x
  = [EvEnter (OpAddBook name author);
     EvWrite (SetError (Some "Book name and author cannot be empty."))] /\
  calls (trace x) = [] /\
  final_repo x = r /\
  error (final x) = Some "Book name and author cannot be empty." /\
  result x = Resolved tt.
Proof.
  intros H. apply empty_guard in H.
  unfold Store.addBook; cbn. rewrite H; cbn.
  split_all; reflexivity.
Qed.

(** C10. When the name or the author is empty, the only field
    [addBook(name, author)] writes is [error]: [books], [isLoading],
    [viewType] and [privateBooksCount] are as they were, and [isLoading]
    is not set to true at any point. *)
Theorem addBook_empty_frame (s : BooksState) (r : R) (name author : string) :
  name = "" \/ author = "" ->
  let x := run repo (Store.addBook name author) s r in
  writes (trace x) = [SetError (Some "Book name and author cannot be empty.")] /\
  ~ In (SetIsLoading true) (writes (trace x)) /\
  books (final x) = books s /\
  isLoading (final x) = isLoading s /\
  viewType (final x) = viewType s /\
  privateBooksCount (final x) = privateBooksCount s.
Proof.
  intros H. apply empty_guard in H.
  unfold Store.addBook; cbn. rewrite H; cbn.
  split_all; try reflexivity.
  intros [H1 | []]. discriminate H1.
Qed.

(** C5. When name and author are non-empty and [repository.addBook]
    resolves to a falsy value or rejects, [addBook(name, author)] sets
    [error]: to "Repository returned false, book might not have been
    added." for a falsy result, to the message of a thrown [Error], to
    "Failed to add book" for any other thrown value.  No reload runs:
    neither [loadBooks] nor [loadPrivateBooksCount] is entered and the
    add is the only repository call, so [books], [viewType] and
    [privateBooksCount] are as they were; [isLoading] is false at the
    end. *)
Theorem addBook_failure_no_reload (s : BooksState) (r : R) (name author : string) :
  name <> "" -> author <> "" ->
  (exists success,
      fst (repo_addBook repo name author r) = Resolved success /\
      truthy success = false) \/
  (exists err, fst (repo_addBook repo name author r) = Rejected err) ->
  let x := run repo (Store.addBook name author) s r in
  error (final x)
  = Some match fst (repo_addBook repo name author r) with
         | Resolved _ =>
             "Repository returned false, book might not have been added."
         | Rejected (ThrownError message) => message
         | Rejected (ThrownValue _) => "Failed to add book"
         end /\
  entered (trace x) = [OpAddBook name author] /\
  calls (trace x) = [AddBook name author] /\
  books (final x) = books s /\
  viewType (final x) = viewType s /\
  privateBooksCount (final x) = privateBooksCount s /\
  isLoading (final x) = false /\
  result x = Resolved tt.
Proof.
  intros Hn Ha Hfail.
  apply nonempty_eqb in Hn, Ha.
  unfold Store.addBook; cbn. rewrite Hn, Ha; cbn.
  destruct (repo_addBook repo name author r) as [o r1]; cbn in *.
  destruct Hfail as [(success & -> & Hv) | (err & ->)]; cbn.
  - rewrite Hv; cbn. split_all; reflexivity.
  - destruct err; cbn; split_all; reflexivity.
Qed.

End AddBookClaims.

(** ** Switching the view *)

(** C3. [setViewType(type)] with [type] equal to the current [viewType]
    changes no field, starts nothing and calls nothing.  With the other
    valid mode it sets [viewType], then starts [loadBooks()] and
    [loadPrivateBooksCount()] and returns without waiting for either: on
    return both repository calls have been made and are in flight
    ([isLoading] is true, [books] and [privateBooksCount] are not yet
    written), and each load completes later, when its call settles.  With
    a value that is neither "all" nor "private" it changes no field and
    calls nothing. *)
Theorem setViewType_cases (s : BooksState) (type : string) :
  let c := Sync.setViewType type s in
  (type = viewType s ->
   store c = s /\ pending c = [] /\ writes (log c) = [] /\
   calls (log c) = [] /\ entered (log c) = [OpSetViewType type]) /\
  (type = "all" \/ type = "private" -> type <> viewType s ->
   let fetch := if type =? "all" then GetBooks else GetPrivateBooks in
   viewType (store c) = type /\
   entered (log c) = [OpSetViewType type; OpLoadBooks; OpLoadPrivateBooksCount] /\
   calls (log c) = [fetch; GetPrivateBooks] /\
   writes (log c) = [SetViewType type; SetIsLoading true; SetError None] /\
   isLoading (store c) = true /\
   error (store c) = None /\
   books (store c) = books s /\
   privateBooksCount (store c) = privateBooksCount s /\
   exists list_load count_load,
     pending c = [list_load; count_load] /\
     awaited list_load = fetch /\
     awaited count_load = GetPrivateBooks /\
     (forall o now,
         let after := settle list_load o now in
         status after = Finished (Resolved tt) /\
         isLoading (reached after) = false /\
         books (reached after)
         = match o with
           | Resolved loaded => array_or_empty loaded
           | Rejected _ => []
           end) /\
     (forall o now,
         let after := settle count_load o now in
         status after = Finished (Resolved tt) /\
         privateBooksCount (reached after)
         = match o with
           | Resolved loaded => length (array_or_empty loaded)
           | Rejected _ => 0
           end)) /\
  (type <> "all" -> type <> "private" ->
   store c = s /\ pending c = [] /\ writes (log c) = [] /\ calls (log c) = []).
Proof.
  cbv zeta. split_all.
  - intros ->. unfold Sync.setViewType. rewrite String.eqb_refl.
    destruct ((viewType s =? "all") || (viewType s =? "private"));
      cbn; split_all; reflexivity.
  - intros Hvalid Hother.
    assert (Hneq : (viewType s =? type) = false).
    { apply eqb_neq. intro E. apply Hother. now symmetry. }
    unfold Sync.setViewType. rewrite Hneq.
    destruct Hvalid as [-> | ->]; cbn.
    + split_all; try reflexivity.
      eexists; eexists. split_all; try reflexivity.
      * intros [v | t] now; cbn; split_all; reflexivity.
      * intros [v | t] now; cbn; split_all; reflexivity.
    + split_all; try reflexivity.
      eexists; eexists. split_all; try reflexivity.
      * intros [v | t] now; cbn; split_all; reflexivity.
      * intros [v | t] now; cbn; split_all; reflexivity.
  - intros Hall Hprivate.
    apply eqb_neq in Hall, Hprivate.
    unfold Sync.setViewType. rewrite Hall, Hprivate. cbn.
    split_all; reflexivity.
Qed.

(** ** The loading flag and the error field over a whole method *)

Lemma ends_loading_snoc (t : list Event) :
  ends_loading (t ++ [EvWrite (SetIsLoading false)]) = true.
Proof. unfold ends_loading. now rewrite rev_unit. Qed.

Section Flags.

Variable R : Type.
Variable repo : BooksRepository R.

Lemma loadBooks_brackets (s : BooksState) (r : R) :
  let x := run repo Store.loadBooks s r in
  starts_loading (trace x) = true /\
  clears_error_first (trace x) = true /\
  ends_loading (trace x) = true /\
  isLoading (final x) = false.
Proof.
  unfold Store.loadBooks; cbn.
  destruct (viewType s =? "all"); cbn.
  - destruct (repo_getBooks repo r) as [[v | t] r1];
      cbn; split_all; reflexivity.
  - destruct (viewType s =? "private"); cbn; [| split_all; reflexivity].
    destruct (repo_getPrivateBooks repo r) as [[v | t] r1];
      cbn; split_all; reflexivity.
Qed.

Lemma addBook_brackets (s : BooksState) (r : R) (name author : string) :
  name <> "" -> author <> "" ->
  let x := run repo (Store.addBook name author) s r in
  starts_loading (trace x) = true /\
  clears_error_first (trace x) = true /\
  ends_loading (trace x) = true /\
  isLoading (final x) = false.
Proof.
  intros Hn Ha.
  destruct (repo_addBook repo name author r) as [[success | err] r1] eqn:Hadd.
  - destruct (truthy success) eqn:Hv.
    + cbv zeta. rewrite (run_addBook_accepted repo s r Hn Ha Hadd Hv).
      cbn [trace final]. split_all; try reflexivity.
      rewrite !app_assoc. apply ends_loading_snoc.
    + apply nonempty_eqb in Hn, Ha.
      unfold Store.addBook; cbn. rewrite Hn, Ha; cbn.
      rewrite Hadd; cbn. rewrite Hv; cbn. split_all; reflexivity.
  - apply nonempty_eqb in Hn, Ha.
    unfold Store.addBook; cbn. rewrite Hn, Ha; cbn.
    rewrite Hadd; cbn. split_all; reflexivity.
Qed.

(** C7, as amended.  [loadBooks], for every state and every answer of
    the repository, and [addBook] with a non-empty name and a non-empty
    author, for every state and every answer of the repository, set
    [isLoading] to true as their first step and to false as their last
    step, so [isLoading] is false when they complete.  [addBook] with an
    empty name or an empty author returns before that: it does not write
    [isLoading] and leaves it as it was. *)
Theorem isLoading_bracketed (s : BooksState) (r : R) (name author : string) :
  let l := run repo Store.loadBooks s r in
  let a := run repo (Store.addBook name author) s r in
  (starts_loading (trace l) = true /\
   ends_loading (trace l) = true /\
   isLoading (final l) = false) /\
  (name <> "" -> author <> "" ->
   starts_loading (trace a) = true /\
   ends_loading (trace a) = true /\
   isLoading (final a) = false) /\
  (name = "" \/ author = "" ->
   filter writes_isLoading (writes (trace a)) = [] /\
   isLoading (final a) = isLoading s).
Proof.
  cbv zeta. split_all.
  - apply loadBooks_brackets.
  - apply loadBooks_brackets.
  - apply loadBooks_brackets.
  - intros Hn Ha. destruct (addBook_brackets s r Hn Ha) as (H1 & _ & H3 & H4).
    split_all; assumption.
  - intros H. apply empty_guard in H.
    unfold Store.addBook; cbn. rewrite H; cbn. split; reflexivity.
Qed.

(** C8, as amended.  [loadBooks], [addBook] with a non-empty name and a
    non-empty author, and [setViewType] with the other valid mode
    (through the [loadBooks] it starts) set [error] to null at their
    start, before they call the repository.  [loadPrivateBooksCount]
    does not write [error] and leaves it as it was, and so does
    [setViewType] with the current mode or with an invalid one;
    [addBook] with an empty name or an empty author writes the
    validation message over it without clearing it first.  And [error]
    is set on a failure: when the list fetch of [loadBooks] rejects,
    [error] ends as the message of the thrown [Error], or "Failed to load
    books"; when the add of [addBook] rejects, as the message of the
    thrown [Error], or "Failed to add book"; when the add resolves to a
    falsy value, as "Repository returned false, book might not have been
    added.". *)
Theorem error_cleared_at_start (s : BooksState) (r : R)
  (name author type : string) :
  let l := run repo Store.loadBooks s r in
  let n := run repo Store.loadPrivateBooksCount s r in
  let a := run repo (Store.addBook name author) s r in
  let v := Sync.setViewType type s in
  clears_error_first (trace l) = true /\
  (name <> "" -> author <> "" -> clears_error_first (trace a) = true) /\
  (type = "all" \/ type = "private" -> type <> viewType s ->
   clears_error_first (log v) = true /\ error (store v) = None) /\
  (filter writes_error (writes (trace n)) = [] /\
   error (final n) = error s) /\
  (type = viewType s \/ (type <> "all" /\ type <> "private") ->
   writes (log v) = [] /\ error (store v) = error s) /\
  (name = "" \/ author = "" ->
   clears_error_first (trace a) = false /\
   error (final a) = Some "Book name and author cannot be empty.") /\
  (forall err,
      viewType s = "all" ->
      fst (repo_getBooks repo r) = Rejected err ->
      error (final l) = Some (message_or "Failed to load books" err)) /\
  (forall err,
      viewType s = "private" ->
      fst (repo_getPrivateBooks repo r) = Rejected err ->
      error (final l) = Some (message_or "Failed to load books" err)) /\
  (forall err,
      name <> "" -> author <> "" ->
      fst (repo_addBook repo name author r) = Rejected err ->
      error (final a) = Some (message_or "Failed to add book" err)) /\
  (forall success,
      name <> "" -> author <> "" ->
      fst (repo_addBook repo name author r) = Resolved success ->
      truthy success = false ->
      error (final a)
      = Some "Repository returned false, book might not have been added.").
Proof.
  cbv zeta.
  split; [| split; [| split; [| split; [| split; [| split;
    [| split; [| split; [| split]]]]]]]].
  - apply loadBooks_brackets.
  - intros Hn Ha. apply (addBook_brackets s r Hn Ha).
  - intros Hvalid Hother.
    assert (Hneq : (viewType s =? type) = false).
    { apply eqb_neq. intro E. apply Hother. now symmetry. }
    unfold Sync.setViewType. rewrite Hneq.
    destruct Hvalid as [-> | ->]; cbn; split; reflexivity.
  - unfold Store.loadPrivateBooksCount; cbn.
    destruct (repo_getPrivateBooks repo r) as [[loaded | t] r1];
      cbn; split; reflexivity.
  - unfold Sync.setViewType. intros [-> | [Hall Hprivate]].
    + rewrite String.eqb_refl.
      destruct ((viewType s =? "all") || (viewType s =? "private"));
        cbn; split; reflexivity.
    + apply eqb_neq in Hall, Hprivate. rewrite Hall, Hprivate.
      cbn; split; reflexivity.
  - intros H. apply empty_guard in H.
    unfold Store.addBook; cbn. rewrite H; cbn. split; reflexivity.
  - intros err Hmode Hget. unfold Store.loadBooks; cbn. rewrite Hmode; cbn.
    destruct (repo_getBooks repo r) as [o r1]; simpl in Hget; subst o.
    reflexivity.
  - intros err Hmode Hget. unfold Store.loadBooks; cbn. rewrite Hmode; cbn.
    destruct (repo_getPrivateBooks repo r) as [o r1]; simpl in Hget; subst o.
    reflexivity.
  - intros err Hn Ha Hadd. apply nonempty_eqb in Hn, Ha.
    unfold Store.addBook; cbn. rewrite Hn, Ha; cbn.
    destruct (repo_addBook repo name author r) as [o r1]; simpl in Hadd; subst o.
    reflexivity.
  - intros success Hn Ha Hadd Hfalsy. apply nonempty_eqb in Hn, Ha.
    unfold Store.addBook; cbn. rewrite Hn, Ha; cbn.
    destruct (repo_addBook repo name author r) as [o r1]; simpl in Hadd; subst o.
    cbn. rewrite Hfalsy. reflexivity.
Qed.

End Flags.

(** ** The two interpreters agree *)

Section StartThenRun.

Variable R : Type.
Variable repo : BooksRepository R.

(** Awaiting a method is starting it and, if it suspended, resuming it
    with what the repository answers. *)
Lemma run_start (p : Prog unit) :
  forall s r,
    run repo p s r
    = match status (start p s) with
      | Finished o =>
          {| result := o; final := reached (start p s); final_repo := r;
             trace := seen (start p s) |}
      | Suspended c k =>
          let o := fst (answer repo c r) in
          let rest := run repo (k o) (reached (start p s)) (snd (answer repo c r)) in
          {| result := result rest; final := final rest;
             final_repo := final_repo rest;
             trace := seen (start p s) ++ trace rest |}
      end.
Proof.
  induction p as [a | t | k IH | e k IH | c k IH]; intros s r; simpl.
  - reflexivity.
  - reflexivity.
  - apply IH.
  - rewrite IH. destruct (status (start k (apply_event e s))); reflexivity.
  - reflexivity.
Qed.

End StartThenRun.

(** ** The repository's add *)

(** The request of [addBook]: a post to "/" of [{id, name, author}] with
    the generated identifier. *)
Lemma addBook_request (now : Z) (random : Q) (post : Repository.GatewayPost)
  (name author : string) :
  let sent := Repository.addBook now random post name author in
  Repository.path sent = "/" /\
  Repository.payload sent
  = JsObject [("id", JsNumber (inject_Z (Repository.generateUniqueId now random)));
              ("name", JsString name); ("author", JsString author)] /\
  Repository.returned sent
  = match post "/" (Repository.payload sent) with
    | Resolved bookAddDto =>
        Resolved (JsBool (truthy bookAddDto
                          && Repository.is_ok (Repository.get_field "status" bookAddDto)))
    | Rejected t => Rejected t
    end.
Proof. cbn. split_all; reflexivity. Qed.

Lemma is_ok_iff (v : JsValue) : Repository.is_ok v = true <-> v = JsString "ok".
Proof.
  destruct v; simpl; split; try discriminate.
  - intros H. apply String.eqb_eq in H. now subst.
  - intros H. injection H as ->. reflexivity.
Qed.

(** X1.  [addBook] resolves to true exactly when the response is truthy and
    its [status] is "ok". *)
Lemma addBook_true_iff (now : Z) (random : Q) (post : Repository.GatewayPost)
  (name author : string) :
  let sent := Repository.addBook now random post name author in
  Repository.returned sent = Resolved (JsBool true) <->
  exists bookAddDto,
    post "/" (Repository.payload sent) = Resolved bookAddDto /\
    truthy bookAddDto = true /\
    Repository.get_field "status" bookAddDto = JsString "ok".
Proof.
  cbn. destruct (post _ _) as [dto | t]; split.
  - intros H. injection H as H. apply andb_true_iff in H as [H1 H2].
    exists dto. split_all; [reflexivity | assumption | now apply is_ok_iff].
  - intros (dto' & Hdto & H1 & H2). injection Hdto as <-.
    rewrite H1. apply is_ok_iff in H2. now rewrite H2.
  - discriminate.
  - intros (dto' & Hdto & _). discriminate.
Qed.

(** ** The identifier of an add *)

(** C9, the part the code does not meet.  [generateUniqueId] is documented
    to return a unique identifier and the repository's tests expect two adds
    to send different ones, but two calls of [addBook] in the same
    millisecond whose random draws fall in the same thousandth send the
    same [id]: with the clock at 1700000000000 and draws 0.25 and
    0.25 + 2^-12 both requests carry 1700000000250, for two different
    books, and both adds resolve to true. *)
Theorem addBook_identifiers_collide :
  Repository.sent_id first_add = JsNumber (inject_Z 1700000000250) /\
  Repository.sent_id second_add = JsNumber (inject_Z 1700000000250) /\
  Repository.sent_id first_add = Repository.sent_id second_add /\
  Repository.payload first_add <> Repository.payload second_add /\
  Repository.returned first_add = Resolved (JsBool true) /\
  Repository.returned second_add = Resolved (JsBool true).
Proof.
  split_all; try (vm_compute; reflexivity).
  vm_compute. intros H. discriminate H.
Qed.

(** ** Scenarios *)

(** C1 at the store as created: the list fetch of mode "all" is the only
    call and its five books become [books]. *)
Lemma loadBooks_initial_scenario :
  calls (trace (run accepting_repository Store.loadBooks initial_state 0))
  = [GetBooks] /\
  books (final (run accepting_repository Store.loadBooks initial_state 0))
  = numbered_books 5 /\
  error (final (run accepting_repository Store.loadBooks initial_state 0))
  = None /\
  isLoading (final (run accepting_repository Store.loadBooks initial_state 0))
  = false.
Proof.
  destruct (loadBooks_matches_viewType accepting_repository initial_state 0
              (or_introl eq_refl))
    as (Hall & _ & _ & _ & Hload & _ & _ & Hbooks).
  cbn in Hbooks. destruct Hbooks as [Hb He].
  split_all; [exact (Hall eq_refl) | exact Hb | exact He | exact Hload].
Defined.

(** C2, the Dune scenario: the add is accepted, then the repository
    returns five books in all and three private ones. *)
Lemma addBook_Dune_Herbert_scenario :
  entered (trace (run accepting_repository (Store.addBook "Dune" "Herbert")
                    initial_state 0))
  = [OpAddBook "Dune" "Herbert"; OpLoadBooks; OpLoadPrivateBooksCount] /\
  length (books (final (run accepting_repository (Store.addBook "Dune" "Herbert")
                          initial_state 0))) = 5 /\
  privateBooksCount (final (run accepting_repository
                              (Store.addBook "Dune" "Herbert") initial_state 0))
  = 3 /\
  error (final (run accepting_repository (Store.addBook "Dune" "Herbert")
                  initial_state 0)) = None /\
  isLoading (final (run accepting_repository (Store.addBook "Dune" "Herbert")
                      initial_state 0)) = false.
Proof.
  assert (Hn : "Dune" <> "") by discriminate.
  assert (Ha : "Herbert" <> "") by discriminate.
  destruct (@addBook_success_reloads nat accepting_repository initial_state 0
              "Dune" "Herbert" (JsBool true) 1 Hn Ha eq_refl eq_refl)
    as (Hentered & _ & _ & _ & _ & Hscenario & _).
  destruct (Hscenario (numbered_books 5) (numbered_books 3) 2 3
              eq_refl eq_refl eq_refl)
    as (Hbooks & Hcount & Herror & Hloading).
  split_all.
  - exact Hentered.
  - rewrite Hbooks. reflexivity.
  - rewrite Hcount. reflexivity.
  - exact Herror.
  - exact Hloading.
Defined.

(** C3 at the store as created: the current mode, the other mode, and a
    value that is no mode. *)
Lemma setViewType_scenarios :
  store (Sync.setViewType "all" initial_state) = initial_state /\
  calls (log (Sync.setViewType "private" initial_state))
  = [GetPrivateBooks; GetPrivateBooks] /\
  viewType (store (Sync.setViewType "private" initial_state)) = "private" /\
  store (Sync.setViewType "invalid" initial_state) = initial_state.
Proof.
  assert (Hother : "private" <> viewType initial_state) by discriminate.
  assert (Hall : "invalid" <> "all") by discriminate.
  assert (Hprivate : "invalid" <> "private") by discriminate.
  destruct (setViewType_cases initial_state "all") as (Hsame & _ & _).
  destruct (setViewType_cases initial_state "private") as (_ & Hswitch & _).
  destruct (setViewType_cases initial_state "invalid") as (_ & _ & Hinvalid).
  destruct (Hsame eq_refl) as (H1 & _).
  destruct (Hswitch (or_intror eq_refl) Hother) as (H2 & _ & H3 & _).
  destruct (Hinvalid Hall Hprivate) as (H4 & _).
  split_all; [exact H1 | exact H3 | exact H2 | exact H4].
Defined.

(** C4 with an empty name, as in the store's tests. *)
Lemma addBook_empty_name_scenario :
  calls (trace (run accepting_repository (Store.addBook "" "Author")
                  initial_state 0)) = [] /\
  error (final (run accepting_repository (Store.addBook "" "Author")
                  initial_state 0))
  = Some "Book name and author cannot be empty.".
Proof.
  destruct (@addBook_empty_rejected nat accepting_repository initial_state 0
              "" "Author" (or_introl eq_refl))
    as (_ & Hcalls & _ & Herror & _).
  split; [exact Hcalls | exact Herror].
Defined.

(** C10 with an empty author, on a store that shows an earlier failure. *)
Lemma addBook_empty_author_scenario :
  writes (trace (run accepting_repository (Store.addBook "Name" "")
                   failed_state 0))
  = [SetError (Some "Book name and author cannot be empty.")] /\
  isLoading (final (run accepting_repository (Store.addBook "Name" "")
                      failed_state 0)) = false.
Proof.
  destruct (@addBook_empty_frame nat accepting_repository failed_state 0
              "Name" "" (or_intror eq_refl))
    as (Hwrites & _ & _ & Hloading & _).
  split; [exact Hwrites | exact Hloading].
Defined.

(** C5 with a repository that refuses the add. *)
Lemma addBook_refused_scenario :
  error (final (run failing_repository (Store.addBook "New Book" "New Author")
                  initial_state 0))
  = Some "Repository returned false, book might not have been added." /\
  entered (trace (run failing_repository (Store.addBook "New Book" "New Author")
                    initial_state 0))
  = [OpAddBook "New Book" "New Author"] /\
  isLoading (final (run failing_repository (Store.addBook "New Book" "New Author")
                      initial_state 0)) = false.
Proof.
  assert (Hn : "New Book" <> "") by discriminate.
  assert (Ha : "New Author" <> "") by discriminate.
  destruct (@addBook_failure_no_reload nat failing_repository initial_state 0
              "New Book" "New Author" Hn Ha
              (or_introl (ex_intro _ (JsBool false) (conj eq_refl eq_refl))))
    as (Herror & Hentered & _ & _ & _ & _ & Hloading & _).
  split_all; [exact Herror | exact Hentered | exact Hloading].
Defined.

(** C7 as amended, on an accepted add and on an add with an empty name. *)
Lemma isLoading_bracketed_scenario :
  ends_loading (trace (run accepting_repository (Store.addBook "Dune" "Herbert")
                         initial_state 0)) = true /\
  filter writes_isLoading
    (writes (trace (run accepting_repository (Store.addBook "" "Herbert")
                      initial_state 0))) = [].
Proof.
  assert (Hn : "Dune" <> "") by discriminate.
  assert (Ha : "Herbert" <> "") by discriminate.
  destruct (isLoading_bracketed accepting_repository initial_state 0
              "Dune" "Herbert") as (_ & Hadd & _).
  destruct (isLoading_bracketed accepting_repository initial_state 0
              "" "Herbert") as (_ & _ & Hempty).
  destruct (Hadd Hn Ha) as (_ & Hends & _).
  destruct (Hempty (or_introl eq_refl)) as (Hnone & _).
  split; [exact Hends | exact Hnone].
Defined.

(** C7 as stated fails on an add with an empty name: [isLoading] is not
    set to true at the start nor to false at the end, the only write is
    that of the validation message. *)
Lemma addBook_empty_never_loading :
  starts_loading (trace (run accepting_repository (Store.addBook "" "Herbert")
                           initial_state 0)) = false /\
  ends_loading (trace (run accepting_repository (Store.addBook "" "Herbert")
                         initial_state 0)) = false /\
  writes (trace (run accepting_repository (Store.addBook "" "Herbert")
                   initial_state 0))
  = [SetError (Some "Book name and author cannot be empty.")].
Proof. split_all; reflexivity. Qed.

(** C8 as amended, on a store that shows an earlier failure, and on a
    store as created against a repository that fails. *)
Lemma error_cleared_scenario :
  clears_error_first
    (trace (run accepting_repository (Store.addBook "Dune" "Herbert")
              failed_state 0)) = true /\
  error (store (Sync.setViewType "private" failed_state)) = None /\
  error (store (Sync.setViewType "all" failed_state)) = Some "Network Error" /\
  error (final (run accepting_repository (Store.addBook "" "Herbert")
                  failed_state 0))
  = Some "Book name and author cannot be empty." /\
  error (final (run failing_repository Store.loadBooks initial_state 0))
  = Some "Network Error" /\
  error (final (run failing_repository (Store.addBook "Dune" "Herbert")
                  initial_state 0))
  = Some "Repository returned false, book might not have been added.".
Proof.
  assert (Hn : "Dune" <> "") by discriminate.
  assert (Ha : "Herbert" <> "") by discriminate.
  assert (Hother : "private" <> viewType failed_state) by discriminate.
  destruct (error_cleared_at_start accepting_repository failed_state 0
              "Dune" "Herbert" "private") as (_ & Hadd & Hswitch & _).
  destruct (error_cleared_at_start accepting_repository failed_state 0
              "" "Herbert" "all") as (_ & _ & _ & _ & Hsame & Hempty & _).
  destruct (error_cleared_at_start failing_repository initial_state 0
              "Dune" "Herbert" "all")
    as (_ & _ & _ & _ & _ & _ & Hload & _ & _ & Hrefused).
  destruct (Hswitch (or_intror eq_refl) Hother) as (_ & Hnone).
  destruct (Hsame (or_introl eq_refl)) as (_ & Hkept).
  destruct (Hempty (or_introl eq_refl)) as (_ & Hmessage).
  split_all.
  - exact (Hadd Hn Ha).
  - exact Hnone.
  - exact Hkept.
  - exact Hmessage.
  - exact (Hload (ThrownError "Network Error") eq_refl eq_refl).
  - exact (Hrefused (JsBool false) Hn Ha eq_refl eq_refl).
Defined.

(** C8 as stated fails on [loadPrivateBooksCount]: run on a store whose
    [error] is "Network Error", it never sets [error] to null and the
    message is still there when it completes. *)
Lemma loadPrivateBooksCount_keeps_error :
  clears_error_first
    (trace (run accepting_repository Store.loadPrivateBooksCount failed_state 0))
  = false /\
  filter writes_error
    (writes (trace (run accepting_repository Store.loadPrivateBooksCount
                      failed_state 0))) = [] /\
  error (final (run accepting_repository Store.loadPrivateBooksCount
                  failed_state 0))
  = Some "Network Error".
Proof. split_all; reflexivity. Qed.

(** ** Further properties *)

Section Further.

Variable R : Type.
Variable repo : BooksRepository R.

(** [init()] runs [loadBooks()] to completion and then
    [loadPrivateBooksCount()]: its trace is the two runs one after the
    other and it leaves the store where the second run leaves it. *)
Lemma init_loads_both (s : BooksState) (r : R) :
  let load := run repo Store.loadBooks s r in
  let count :=
    run repo Store.loadPrivateBooksCount (final load) (final_repo load) in
  let x := run repo Store.init s r in
  trace x = EvEnter OpInit :: trace load ++ trace count /\
  final x = final count /\
  final_repo x = final_repo count /\
  result x = Resolved tt.
Proof.
  intros load count x. unfold x, Store.init.
  cbn [enter emit bind run observe apply_event].
  rewrite run_bind. fold load. unfold and_then.
  assert (HL : result load = Resolved tt) by apply loadBooks_resolves.
  rewrite HL. fold count. unfold observe. cbn [trace final final_repo result].
  split_all; try reflexivity. apply loadPrivateBooksCount_resolves.
Qed.

(** X7.  With a [viewType] that is neither "all" nor "private", [loadBooks()]
    calls nothing and empties [books]. *)
Lemma loadBooks_unknown_viewType (s : BooksState) (r : R) :
  viewType s <> "all" -> viewType s <> "private" ->
  let x := run repo Store.loadBooks s r in
  calls (trace x) = [] /\
  final_repo x = r /\
  books (final x) = [] /\
  error (final x) = None /\
  isLoading (final x) = false.
Proof.
  intros Hall Hprivate. apply eqb_neq in Hall, Hprivate.
  unfold Store.loadBooks; cbn. rewrite Hall, Hprivate; cbn.
  split_all; reflexivity.
Qed.

End Further.

Lemma loadBooks_unknown_viewType_scenario :
  calls (trace (run test_repository Store.loadBooks
                  (apply_write (SetViewType "shared") initial_state) 0)) = [] /\
  books (final (run test_repository Store.loadBooks
                  (apply_write (SetViewType "shared") initial_state) 0)) = [].
Proof.
  assert (Hall : viewType (apply_write (SetViewType "shared") initial_state)
                 <> "all") by discriminate.
  assert (Hprivate : viewType (apply_write (SetViewType "shared") initial_state)
                     <> "private") by discriminate.
  destruct (@loadBooks_unknown_viewType nat test_repository
              (apply_write (SetViewType "shared") initial_state) 0 Hall Hprivate)
    as (Hcalls & _ & Hbooks & _).
  split; [exact Hcalls | exact Hbooks].
Defined.

(** * More of the code *)

(** ** The repository *)

(** What [getPrivateBooks] hides from its caller it writes to the console:
    on a rejected request it returns the empty array and prints the
    error. *)
Lemma getPrivateBooks_prints_what_it_hides (get : Repository.GatewayGet)
  (err : Thrown) :
  get "/private" = Rejected err ->
  Repository.getPrivateBooks get = Resolved (JsArray []) /\
  Repository.getPrivateBooks_console get
  = [("Error fetching private books:", err)].
Proof.
  intros Hget. unfold Repository.getPrivateBooks, Repository.getPrivateBooks_console.
  rewrite Hget. split; reflexivity.
Qed.

(** X5.  Whatever the gateway does, [getPrivateBooks] resolves, to an array;
    [getBooks] resolves to an array or rejects with what the gateway
    rejected with. *)
Lemma repository_fetches_arrays (get : Repository.GatewayGet) :
  (exists privateBooks,
      Repository.getPrivateBooks get = Resolved (JsArray privateBooks)) /\
  ((exists allBooks, Repository.getBooks get = Resolved (JsArray allBooks)) \/
   (exists err, get "/" = Rejected err /\ Repository.getBooks get = Rejected err)).
Proof.
  unfold Repository.getBooks, Repository.getPrivateBooks. split.
  - destruct (get "/private") as [dto | t]; eexists; reflexivity.
  - destruct (get "/") as [dto | t].
    + left. eexists; reflexivity.
    + right. exists t. split; reflexivity.
Qed.

(** ** The store *)

Section StoreMore.

Variable R : Type.
Variable repo : BooksRepository R.

Lemma loadBooks_keeps (s : BooksState) (r : R) :
  viewType (final (run repo Store.loadBooks s r)) = viewType s /\
  privateBooksCount (final (run repo Store.loadBooks s r)) = privateBooksCount s.
Proof.
  unfold Store.loadBooks; cbn.
  destruct (viewType s =? "all"); cbn.
  - destruct (repo_getBooks repo r) as [[v | t] r1]; cbn; split; reflexivity.
  - destruct (viewType s =? "private"); cbn; [| split; reflexivity].
    destruct (repo_getPrivateBooks repo r) as [[v | t] r1]; cbn; split; reflexivity.
Qed.

Lemma loadPrivateBooksCount_keeps (s : BooksState) (r : R) :
  let x := run repo Store.loadPrivateBooksCount s r in
  viewType (final x) = viewType s /\
  books (final x) = books s /\
  error (final x) = error s /\
  isLoading (final x) = isLoading s.
Proof.
  unfold Store.loadPrivateBooksCount; cbn.
  destruct (repo_getPrivateBooks repo r) as [[v | t] r1]; cbn; split_all; reflexivity.
Qed.

Lemma addBook_keeps_viewType (s : BooksState) (r : R) (name author : string) :
  viewType (final (run repo (Store.addBook name author) s r)) = viewType s.
Proof.
  destruct ((name =? "") || (author =? "")) eqn:Hguard.
  - unfold Store.addBook; cbn. rewrite Hguard. reflexivity.
  - apply orb_false_iff in Hguard as [Hn Ha].
    destruct (repo_addBook repo name author r) as [[success | err] r1] eqn:Hadd.
    + destruct (truthy success) eqn:Hv.
      * apply eqb_neq in Hn, Ha.
        rewrite (run_addBook_accepted repo s r Hn Ha Hadd Hv). cbn [final].
        change (viewType (apply_write (SetIsLoading false) ?x)) with (viewType x).
        destruct (loadPrivateBooksCount_keeps
                    (final (run repo Store.loadBooks (about_to_add s) r1))
                    (final_repo (run repo Store.loadBooks (about_to_add s) r1)))
          as (-> & _).
        destruct (loadBooks_keeps (about_to_add s) r1) as (-> & _).
        reflexivity.
      * unfold Store.addBook; cbn. rewrite Hn, Ha; cbn.
        rewrite Hadd; cbn. rewrite Hv. reflexivity.
    + unfold Store.addBook; cbn. rewrite Hn, Ha; cbn.
      rewrite Hadd. reflexivity.
Qed.

(** X8.  No method but [setViewType] changes [viewType]: the two loads,
    [addBook] and [init] leave it as it was, whatever the repository
    answers.  [setViewType(type)] leaves the store in mode [type] when
    [type] is "all" or "private" and in the mode it was in otherwise, so a
    store in one of the two modes stays in one of them. *)
Theorem viewType_only_set_by_setViewType (s : BooksState) (r : R)
  (name author type : string) :
  viewType (final (run repo Store.loadBooks s r)) = viewType s /\
  viewType (final (run repo Store.loadPrivateBooksCount s r)) = viewType s /\
  viewType (final (run repo (Store.addBook name author) s r)) = viewType s /\
  viewType (final (run repo Store.init s r)) = viewType s /\
  viewType (store (Sync.setViewType type s))
  = if (type =? "all") || (type =? "private") then type else viewType s.
Proof.
  split_all.
  - apply loadBooks_keeps.
  - apply loadPrivateBooksCount_keeps.
  - apply addBook_keeps_viewType.
  - unfold Store.init. cbn [enter emit bind run observe apply_event final].
    rewrite run_bind. unfold and_then. rewrite loadBooks_resolves. cbn [final].
    destruct (loadPrivateBooksCount_keeps
                (final (run repo Store.loadBooks s r))
                (final_repo (run repo Store.loadBooks s r))) as (-> & _).
    apply loadBooks_keeps.
  - unfold Sync.setViewType.
    destruct ((type =? "all") || (type =? "private")) eqn:Hvalid; [| reflexivity].
    destruct (viewType s =? type) eqn:Hsame; cbn [negb store].
    + now apply String.eqb_eq in Hsame.
    + apply orb_true_iff in Hvalid as [H | H]; apply String.eqb_eq in H; subst type;
        reflexivity.
Qed.

(** X9.  What [loadBooks()] leaves in the store does not depend on the [books],
    [error] and [isLoading] it found there: from two stores in the same
    mode and with the same count it makes the same calls and ends in the
    same store. *)
Theorem loadBooks_forgets (s1 s2 : BooksState) (r : R) :
  viewType s1 = viewType s2 ->
  privateBooksCount s1 = privateBooksCount s2 ->
  final (run repo Store.loadBooks s1 r) = final (run repo Store.loadBooks s2 r) /\
  trace (run repo Store.loadBooks s1 r) = trace (run repo Store.loadBooks s2 r) /\
  final_repo (run repo Store.loadBooks s1 r)
  = final_repo (run repo Store.loadBooks s2 r).
Proof.
  destruct s1 as [b1 l1 e1 v1 c1], s2 as [b2 l2 e2 v2 c2]; simpl.
  intros <- <-. unfold Store.loadBooks; cbn.
  destruct (v1 =? "all"); cbn.
  - destruct (repo_getBooks repo r) as [[v | t] r1]; cbn; split_all; reflexivity.
  - destruct (v1 =? "private"); cbn; [| split_all; reflexivity].
    destruct (repo_getPrivateBooks repo r) as [[v | t] r1];
      cbn; split_all; reflexivity.
Qed.

(** The list fetch of a mode: none for a mode that is neither "all" nor
    "private". *)
Lemma loadBooks_calls (s : BooksState) (r : R) :
  calls (trace (run repo Store.loadBooks s r))
  = if viewType s =? "all" then [GetBooks]
    else if viewType s =? "private" then [GetPrivateBooks] else [].
Proof.
  unfold Store.loadBooks; cbn.
  destruct (viewType s =? "all"); cbn.
  - destruct (repo_getBooks repo r) as [[v | t] r1]; reflexivity.
  - destruct (viewType s =? "private"); cbn; [| reflexivity].
    destruct (repo_getPrivateBooks repo r) as [[v | t] r1]; reflexivity.
Qed.

Lemma loadPrivateBooksCount_calls (s : BooksState) (r : R) :
  calls (trace (run repo Store.loadPrivateBooksCount s r)) = [GetPrivateBooks].
Proof.
  unfold Store.loadPrivateBooksCount; cbn.
  destruct (repo_getPrivateBooks repo r) as [[v | t] r1]; reflexivity.
Qed.

Lemma calls_append (t u : list Event) : calls (t ++ u) = calls t ++ calls u.
Proof.
  induction t as [| e t IH]; simpl; [reflexivity |].
  destruct e; simpl; now rewrite IH.
Qed.

(** X10.  An accepted add costs three repository calls, in this order: the add,
    the list fetch of the current mode, the private fetch.  In mode
    "private" the private fetch is therefore made twice in a row. *)
Theorem addBook_accepted_calls (s : BooksState) (r : R) (name author : string)
  (success : JsValue) (r1 : R) :
  name <> "" -> author <> "" ->
  repo_addBook repo name author r = (Resolved success, r1) ->
  truthy success = true ->
  viewType s = "all" \/ viewType s = "private" ->
  calls (trace (run repo (Store.addBook name author) s r))
  = [AddBook name author;
     if viewType s =? "all" then GetBooks else GetPrivateBooks;
     GetPrivateBooks].
Proof.
  intros Hn Ha Hadd Hv Hmode.
  rewrite (run_addBook_accepted repo s r Hn Ha Hadd Hv). cbn [trace].
  rewrite !calls_append, loadBooks_calls, loadPrivateBooksCount_calls.
  change (viewType (about_to_add s)) with (viewType s).
  destruct Hmode as [-> | ->]; reflexivity.
Qed.

(** X11.  After an accepted add the store shows the outcome of the reload, not
    of the add: [books] and [error] are what [loadBooks] left.  So when
    the list fetch of the reload rejects, the add ends with an empty
    list and that fetch's message in [error], although the book was
    added. *)
Theorem addBook_accepted_reload_fails (s : BooksState) (r : R)
  (name author message : string) (success : JsValue) (r1 r2 : R) :
  name <> "" -> author <> "" ->
  repo_addBook repo name author r = (Resolved success, r1) ->
  truthy success = true ->
  viewType s = "all" ->
  repo_getBooks repo r1 = (Rejected (ThrownError message), r2) ->
  let x := run repo (Store.addBook name author) s r in
  error (final x) = Some message /\
  books (final x) = [] /\
  isLoading (final x) = false /\
  entered (trace x) = [OpAddBook name author; OpLoadBooks; OpLoadPrivateBooksCount].
Proof.
  intros Hn Ha Hadd Hv Hmode Hget x. unfold x.
  rewrite (run_addBook_accepted repo s r Hn Ha Hadd Hv). cbn [trace final].
  rewrite !entered_app, loadBooks_entered, loadPrivateBooksCount_entered.
  unfold about_to_add, Store.loadBooks; cbn. rewrite Hmode; cbn.
  rewrite Hget; cbn.
  destruct (repo_getPrivateBooks repo r2) as [[v | t] r3]; cbn; split_all; reflexivity.
Qed.

(** X6.  [init()] in mode "all" against a repository that returns two arrays:
    [books] is the first, [privateBooksCount] the length of the second,
    [error] is null and [isLoading] false. *)
Theorem init_populates (s : BooksState) (r r1 r2 : R) (all private : list JsValue) :
  viewType s = "all" ->
  repo_getBooks repo r = (Resolved (JsArray all), r1) ->
  repo_getPrivateBooks repo r1 = (Resolved (JsArray private), r2) ->
  let x := run repo Store.init s r in
  books (final x) = all /\
  privateBooksCount (final x) = length private /\
  error (final x) = None /\
  isLoading (final x) = false /\
  calls (trace x) = [GetBooks; GetPrivateBooks].
Proof.
  intros Hmode Hall Hprivate. unfold Store.init, Store.loadBooks; cbn.
  rewrite Hmode; cbn. rewrite Hall; cbn. rewrite Hprivate; cbn.
  split_all; reflexivity.
Qed.

End StoreMore.

Lemma loadBooks_forgets_scenario :
  final (run accepting_repository Store.loadBooks failed_state 0)
  = final (run accepting_repository Store.loadBooks initial_state 0).
Proof.
  destruct (@loadBooks_forgets nat accepting_repository failed_state initial_state
              0 eq_refl eq_refl) as (H & _).
  exact H.
Defined.

Lemma addBook_accepted_calls_scenario :
  calls (trace (run accepting_repository (Store.addBook "Dune" "Herbert")
                  (apply_write (SetViewType "private") initial_state) 0))
  = [AddBook "Dune" "Herbert"; GetPrivateBooks; GetPrivateBooks].
Proof.
  assert (Hn : "Dune" <> "") by discriminate.
  assert (Ha : "Herbert" <> "") by discriminate.
  exact (@addBook_accepted_calls nat accepting_repository
           (apply_write (SetViewType "private") initial_state) 0
           "Dune" "Herbert" (JsBool true) 1 Hn Ha eq_refl eq_refl
           (or_intror eq_refl)).
Defined.

Lemma addBook_accepted_reload_fails_scenario :
  error (final (run (fixed_repository (Rejected (ThrownError "Network Error"))
                       (Resolved (JsArray (numbered_books 3)))
                       (Resolved (JsBool true)))
                  (Store.addBook "Dune" "Herbert") initial_state 0))
  = Some "Network Error".
Proof.
  assert (Hn : "Dune" <> "") by discriminate.
  assert (Ha : "Herbert" <> "") by discriminate.
  destruct (@addBook_accepted_reload_fails nat
              (fixed_repository (Rejected (ThrownError "Network Error"))
                 (Resolved (JsArray (numbered_books 3)))
                 (Resolved (JsBool true)))
              initial_state 0 "Dune" "Herbert" "Network Error" (JsBool true) 1 2
              Hn Ha eq_refl eq_refl eq_refl eq_refl) as (H & _).
  exact H.
Defined.

(** The start-up scenario: mode "all", four books in all and four private
    ones. *)
Lemma init_four_books_scenario :
  length (books (final (run test_repository Store.init initial_state 0))) = 4 /\
  privateBooksCount (final (run test_repository Store.init initial_state 0)) = 4 /\
  error (final (run test_repository Store.init initial_state 0)) = None /\
  isLoading (final (run test_repository Store.init initial_state 0)) = false.
Proof.
  destruct (@init_populates nat test_repository initial_state 0 1 2
              (numbered_books 4) (numbered_books 4) eq_refl eq_refl eq_refl)
    as (Hbooks & Hcount & Herror & Hloading & _).
  split_all.
  - rewrite Hbooks. reflexivity.
  - rewrite Hcount. reflexivity.
  - exact Herror.
  - exact Hloading.
Defined.

(** ** Methods in flight together *)

(** X12.  The two loads that [setViewType] starts write different fields, so the
    order in which their calls settle does not matter: either way the
    store ends in the new mode with [isLoading] false, [books] and [error]
    from the list fetch and [privateBooksCount] from the private fetch,
    and nothing is left in flight. *)
Theorem reloads_commute (s : BooksState) (type : string)
  (list_outcome count_outcome : Outcome JsValue) :
  type = "all" \/ type = "private" -> type <> viewType s ->
  let c := switch_view type (idle s) in
  let list_first := settle_nth 0 count_outcome (settle_nth 0 list_outcome c) in
  let count_first := settle_nth 0 list_outcome (settle_nth 1 count_outcome c) in
  store list_first = store count_first /\
  pending list_first = [] /\
  pending count_first = [] /\
  store list_first
  = {| books := match list_outcome with
                | Resolved loaded => array_or_empty loaded
                | Rejected _ => []
                end;
       isLoading := false;
       error := match list_outcome with
                | Resolved _ => None
                | Rejected err => Some (message_or "Failed to load books" err)
                end;
       viewType := type;
       privateBooksCount := match count_outcome with
                            | Resolved loaded => length (array_or_empty loaded)
                            | Rejected _ => 0
                            end |}.
Proof.
  intros Hvalid Hother.
  assert (Hneq : (viewType s =? type) = false).
  { apply eqb_neq. intro E. apply Hother. now symmetry. }
  unfold switch_view, Sync.setViewType. cbn [idle store pending log].
  rewrite Hneq.
  destruct Hvalid as [-> | ->]; cbn;
    destruct list_outcome as [loaded | err], count_outcome as [counted | err'];
    cbn; split_all; reflexivity.
Qed.

Lemma reloads_commute_scenario :
  store (settle_nth 0 (Rejected (ThrownError "Network Error"))
           (settle_nth 0 (Resolved (JsArray (numbered_books 3)))
              (switch_view "private" (idle initial_state))))
  = store (settle_nth 0 (Resolved (JsArray (numbered_books 3)))
             (settle_nth 1 (Rejected (ThrownError "Network Error"))
                (switch_view "private" (idle initial_state)))).
Proof.
  assert (Hother : "private" <> viewType initial_state) by discriminate.
  destruct (@reloads_commute initial_state "private"
              (Resolved (JsArray (numbered_books 3)))
              (Rejected (ThrownError "Network Error"))
              (or_intror eq_refl) Hother) as (H & _).
  exact H.
Defined.

(** X13.  No response is checked against the mode it was asked for, and
    [isLoading] is one flag for all the loads in flight.  Switch to
    "private" and back to "all" before anything settles: four calls are in
    flight.  If the list of all books arrives first, [isLoading] becomes
    false although the list of private books is still awaited; when that
    one arrives, the store, in mode "all", shows the private books. *)
Theorem stale_list_overwrites (s : BooksState) (all private : list JsValue) :
  viewType s = "all" ->
  let c := switch_view "all" (switch_view "private" (idle s)) in
  let c1 := settle_nth 2 (Resolved (JsArray all)) c in
  let c2 := settle_nth 0 (Resolved (JsArray private)) c1 in
  map awaited (pending c)
  = [GetPrivateBooks; GetPrivateBooks; GetBooks; GetPrivateBooks] /\
  books (store c1) = all /\
  isLoading (store c1) = false /\
  map awaited (pending c1) = [GetPrivateBooks; GetPrivateBooks; GetPrivateBooks] /\
  viewType (store c2) = "all" /\
  books (store c2) = private /\
  error (store c2) = None.
Proof.
  intros Hmode. destruct s as [bs ld er vt pc]; simpl in Hmode; subst vt.
  cbn. split_all; reflexivity.
Qed.

Lemma stale_list_overwrites_scenario :
  books (store (settle_nth 0 (Resolved (JsArray (numbered_books 3)))
                  (settle_nth 2 (Resolved (JsArray (numbered_books 5)))
                     (switch_view "all"
                        (switch_view "private" (idle initial_state))))))
  = numbered_books 3.
Proof.
  destruct (@stale_list_overwrites initial_state (numbered_books 5)
              (numbered_books 3) eq_refl) as (_ & _ & _ & _ & _ & H & _).
  exact H.
Defined.

(** X14.  [init()] started and not awaited, as the module does when it is
    loaded, has one call in flight at a time: first the list fetch of the
    mode, and the private fetch only once the list fetch has settled
    (where [setViewType] starts both at once). *)
Theorem init_one_call_at_a_time (s : BooksState)
  (list_outcome count_outcome : Outcome JsValue) :
  viewType s = "all" \/ viewType s = "private" ->
  let c := spawn Store.init (idle s) in
  let c1 := settle_nth 0 list_outcome c in
  let c2 := settle_nth 0 count_outcome c1 in
  map awaited (pending c)
  = [if viewType s =? "all" then GetBooks else GetPrivateBooks] /\
  isLoading (store c) = true /\
  map awaited (pending c1) = [GetPrivateBooks] /\
  isLoading (store c1) = false /\
  pending c2 = [] /\
  privateBooksCount (store c2)
  = match count_outcome with
    | Resolved loaded => length (array_or_empty loaded)
    | Rejected _ => 0
    end.
Proof.
  intros Hmode. destruct s as [bs ld er vt pc]; simpl in Hmode.
  destruct Hmode as [-> | ->];
    destruct list_outcome as [loaded | err], count_outcome as [counted | err'];
    cbn; split_all; reflexivity.
Qed.

Lemma init_one_call_at_a_time_scenario :
  map awaited (pending (spawn Store.init (idle initial_state))) = [GetBooks].
Proof.
  destruct (@init_one_call_at_a_time initial_state (Resolved JsNull)
              (Resolved JsNull) (or_introl eq_refl)) as (H & _).
  exact H.
Defined.

(** X15.  An accepted add is three calls one after the other, and [isLoading]
    does not cover the last: it is true while the add and the list fetch
    are in flight, and false, set by the [loadBooks] inside, while the
    private fetch of the same add is still awaited. *)
Theorem add_idle_before_done (s : BooksState) (name author : string)
  (success : JsValue) (list_outcome count_outcome : Outcome JsValue) :
  name <> "" -> author <> "" ->
  truthy success = true ->
  viewType s = "all" \/ viewType s = "private" ->
  let c := spawn (Store.addBook name author) (idle s) in
  let c1 := settle_nth 0 (Resolved success) c in
  let c2 := settle_nth 0 list_outcome c1 in
  let c3 := settle_nth 0 count_outcome c2 in
  (map awaited (pending c) = [AddBook name author] /\
   isLoading (store c) = true) /\
  (map awaited (pending c1)
   = [if viewType s =? "all" then GetBooks else GetPrivateBooks] /\
   isLoading (store c1) = true) /\
  (map awaited (pending c2) = [GetPrivateBooks] /\
   isLoading (store c2) = false) /\
  (pending c3 = [] /\ isLoading (store c3) = false).
Proof.
  intros Hn Ha Hv Hmode. apply nonempty_eqb in Hn, Ha.
  destruct s as [bs ld er vt pc]; simpl in Hmode.
  unfold spawn, Store.addBook; cbn. rewrite Hn, Ha; cbn.
  unfold settle_nth; cbn. unfold settle; cbn. rewrite Hv; cbn.
  destruct Hmode as [-> | ->];
    destruct list_outcome as [loaded | err], count_outcome as [counted | err'];
    cbn; split_all; reflexivity.
Qed.

Lemma add_idle_before_done_scenario :
  isLoading
    (store (settle_nth 0 (Resolved (JsArray (numbered_books 5)))
              (settle_nth 0 (Resolved (JsBool true))
                 (spawn (Store.addBook "Dune" "Herbert") (idle initial_state)))))
  = false /\
  map awaited
    (pending (settle_nth 0 (Resolved (JsArray (numbered_books 5)))
                (settle_nth 0 (Resolved (JsBool true))
                   (spawn (Store.addBook "Dune" "Herbert") (idle initial_state)))))
  = [GetPrivateBooks].
Proof.
  assert (Hn : "Dune" <> "") by discriminate.
  assert (Ha : "Herbert" <> "") by discriminate.
  destruct (@add_idle_before_done initial_state "Dune" "Herbert" (JsBool true)
              (Resolved (JsArray (numbered_books 5)))
              (Resolved (JsArray (numbered_books 3)))
              Hn Ha eq_refl (or_introl eq_refl))
    as (_ & _ & (Hpending & Hloading) & _).
  split; [exact Hloading | exact Hpending].
Defined.

(** ** The store over the application's repository *)

Section Production.

Variable G : Type.
Variable gw : Gateway G.

(** X16.  In mode "private", with the repository the application uses,
    [loadBooks()] never reports a failure: [getPrivateBooks] turns a
    rejected request into an empty list, so [error] ends null, [books]
    ends empty, and nothing is written to the console by the store. *)
Theorem private_view_hides_failures (s : BooksState) (g : G) :
  viewType s = "private" ->
  let x := run (booksRepository gw) Store.loadBooks s g in
  error (final x) = None /\
  isLoading (final x) = false /\
  console_errors (trace x) = [] /\
  books (final x)
  = match fst (gateway_get gw "/private" g) with
    | Resolved body => array_or_empty body
    | Rejected _ => []
    end.
Proof.
  destruct s as [bs ld er vt pc]; simpl. intros ->.
  cbn. unfold Repository.getPrivateBooks.
  destruct (gateway_get gw "/private" g) as [[body | err] g1]; cbn.
  - destruct body; split_all; reflexivity.
  - split_all; reflexivity.
Qed.

(** X17.  With the repository the application uses, the [catch] of
    [loadPrivateBooksCount()] is never entered: the count ends as the
    length of the body when it is an array and as 0 otherwise, a rejected
    request included, and the store writes nothing to the console (on a
    rejected request the gateway and the repository write their own
    messages, see [ApiGateway.get] and
    [Repository.getPrivateBooks_console]; the trace is that of the
    store). *)
Theorem count_reload_never_fails (s : BooksState) (g : G) :
  let x := run (booksRepository gw) Store.loadPrivateBooksCount s g in
  console_errors (trace x) = [] /\
  privateBooksCount (final x)
  = match fst (gateway_get gw "/private" g) with
    | Resolved body => length (array_or_empty body)
    | Rejected _ => 0
    end.
Proof.
  cbn. unfold Repository.getPrivateBooks.
  destruct (gateway_get gw "/private" g) as [[body | err] g1]; cbn.
  - destruct body; split; reflexivity.
  - split; reflexivity.
Qed.

(** X18.  An add that the server answers with anything but a body whose
    [status] is "ok" ends with the fixed message in [error]; no reload is
    made, and [books] is as it was. *)
Theorem add_refused_by_server (s : BooksState) (g g1 : G) (name author : string)
  (dto : JsValue) :
  name <> "" -> author <> "" ->
  let sent :=
    Repository.addBook (gateway_now gw g) (gateway_random gw g)
      (fun path payload => fst (gateway_post gw path payload g)) name author in
  gateway_post gw "/" (Repository.payload sent) g = (Resolved dto, g1) ->
  truthy dto && Repository.is_ok (Repository.get_field "status" dto) = false ->
  let x := run (booksRepository gw) (Store.addBook name author) s g in
  error (final x)
  = Some "Repository returned false, book might not have been added." /\
  calls (trace x) = [AddBook name author] /\
  books (final x) = books s /\
  isLoading (final x) = false /\
  final_repo x = g1.
Proof.
  intros Hn Ha sent Hpost Hrefused.
  apply nonempty_eqb in Hn, Ha.
  unfold Store.addBook; cbn. rewrite Hn, Ha; cbn.
  unfold sent in Hpost; cbn in Hpost. rewrite Hpost; cbn.
  rewrite Hrefused; cbn. split_all; reflexivity.
Qed.

End Production.

Lemma private_view_hides_failures_scenario :
  error (final (run (booksRepository offline_gateway) Store.loadBooks
                  (apply_write (SetViewType "private") initial_state) 0))
  = None.
Proof.
  destruct (@private_view_hides_failures nat offline_gateway
              (apply_write (SetViewType "private") initial_state) 0 eq_refl)
    as (H & _).
  exact H.
Defined.

Lemma add_refused_by_server_scenario :
  error (final (run (booksRepository refusing_gateway)
                  (Store.addBook "Dune" "Herbert") initial_state 0))
  = Some "Repository returned false, book might not have been added.".
Proof.
  assert (Hn : "Dune" <> "") by discriminate.
  assert (Ha : "Herbert" <> "") by discriminate.
  destruct (@add_refused_by_server nat refusing_gateway initial_state 0 1
              "Dune" "Herbert" (JsObject [("status", JsString "error")])
              Hn Ha eq_refl eq_refl) as (H & _).
  exact H.
Defined.

(** ** The gateway *)

Section GatewayMore.

Variable parse : string -> Outcome JsValue.
Variable stringify : JsValue -> string.
Variable toString : JsValue -> string.
Variable type_error_message : string.
Variable fetch : ApiGateway.Request -> Outcome ApiGateway.Response.

Local Abbreviation gateway_get_of :=
  (ApiGateway.get parse toString type_error_message fetch).
Local Abbreviation gateway_post_of :=
  (ApiGateway.post parse stringify toString type_error_message fetch).

(** X19.  [get] and [post] read a response in the same way: when [fetch]
    answers the two requests alike, the two promises settle alike.  What
    [get] does more is to write every rejection to the console. *)
Theorem get_post_agree (path : string) (payload : JsValue) :
  fetch (ApiGateway.get_request path)
  = fetch (ApiGateway.post_request stringify path payload) ->
  fst (gateway_get_of path) = gateway_post_of path payload /\
  snd (gateway_get_of path)
  = match fst (gateway_get_of path) with
    | Resolved _ => []
    | Rejected err => [err]
    end.
Proof.
  intros Hsame. unfold ApiGateway.get, ApiGateway.post. rewrite <- Hsame.
  match goal with
  | |- fst (match ?a with _ => _ end) = _ /\ _ => destruct a
  end; split; reflexivity.
Qed.

(** X20.  Neither function resolves on a response that is not [ok], whatever
    its body holds and whether or not it can be read. *)
Theorem not_ok_never_resolves (path : string) (payload : JsValue)
  (response : ApiGateway.Response) :
  (forall request, fetch request = Resolved response) ->
  ApiGateway.ok response = false ->
  (exists err, fst (gateway_get_of path) = Rejected err) /\
  (exists err, gateway_post_of path payload = Rejected err).
Proof.
  intros Hfetch Hok.
  unfold ApiGateway.get, ApiGateway.post. rewrite !Hfetch. cbn. rewrite Hok. cbn.
  destruct (ApiGateway.text response) as [errorText | err]; cbn.
  - destruct (parse errorText) as [errorJson | err]; cbn.
    + destruct errorJson; cbn; split; eexists; reflexivity.
    + split; eexists; reflexivity.
  - split; eexists; reflexivity.
Qed.

(** X21.  The message of the rejection for a response that is not [ok]: the
    [message] field of the body when the body is a JSON object with a
    non-empty string there. *)
Theorem error_message_from_body (path errorText message : string)
  (response : ApiGateway.Response) (fields : list (string * JsValue)) :
  fetch (ApiGateway.get_request path) = Resolved response ->
  ApiGateway.ok response = false ->
  ApiGateway.text response = Resolved errorText ->
  parse errorText = Resolved (JsObject fields) ->
  Repository.get_field "message" (JsObject fields) = JsString message ->
  message <> "" ->
  fst (gateway_get_of path) = Rejected (ThrownError message).
Proof.
  intros Hfetch Hok Htext Hparse Hfield Hmessage.
  apply nonempty_eqb in Hmessage.
  unfold ApiGateway.get. rewrite Hfetch. cbn. rewrite Hok. cbn.
  rewrite Htext. cbn. rewrite Hparse.
  cbn [and_next catching ApiGateway.member].
  rewrite Hfield. unfold ApiGateway.or_value. cbn [truthy].
  rewrite Hmessage. reflexivity.
Qed.

(** X22.  When the body is not JSON, and also when it is the JSON [null], the
    message is "HTTP error", the status, a colon, and the first non-empty
    one of the status text, the body and "Unknown error". *)
Theorem error_message_fallback (path errorText : string)
  (response : ApiGateway.Response) :
  fetch (ApiGateway.get_request path) = Resolved response ->
  ApiGateway.ok response = false ->
  ApiGateway.text response = Resolved errorText ->
  (exists err, parse errorText = Rejected err) \/ parse errorText = Resolved JsNull ->
  fst (gateway_get_of path)
  = Rejected
      (ThrownError
         ("HTTP error " ++ ApiGateway.show_status (ApiGateway.status response)
          ++ ": "
          ++ or_string (ApiGateway.statusText response)
               (or_string errorText "Unknown error"))).
Proof.
  intros Hfetch Hok Htext Hparse.
  unfold ApiGateway.get. rewrite Hfetch. cbn. rewrite Hok. cbn.
  rewrite Htext. cbn.
  destruct Hparse as [[err ->] | ->]; reflexivity.
Qed.

(** X23.  An [ok] response with an empty body is [null] for the gateway, without
    a call of [JSON.parse]; for the repository it is an empty list of
    books, and a refused add. *)
Theorem empty_body (path : string) (payload : JsValue)
  (response : ApiGateway.Response) (now : Z) (random : Q) (name author : string) :
  (forall request, fetch request = Resolved response) ->
  ApiGateway.ok response = true ->
  ApiGateway.text response = Resolved "" ->
  gateway_get_of path = (Resolved JsNull, []) /\
  gateway_post_of path payload = Resolved JsNull /\
  Repository.getBooks (fun p => fst (gateway_get_of p)) = Resolved (JsArray []) /\
  Repository.getPrivateBooks (fun p => fst (gateway_get_of p))
  = Resolved (JsArray []) /\
  Repository.returned (Repository.addBook now random gateway_post_of name author)
  = Resolved (JsBool false).
Proof.
  intros Hfetch Hok Htext.
  unfold Repository.getBooks, Repository.getPrivateBooks, Repository.addBook,
    ApiGateway.get, ApiGateway.post.
  cbn [Repository.returned]. rewrite !Hfetch. cbn. rewrite Hok. cbn.
  rewrite Htext. cbn. split_all; reflexivity.
Qed.

End GatewayMore.

Lemma get_post_agree_scenario :
  fst (ApiGateway.get (parse_table []) no_text "" (fixed_fetch (Resolved not_found))
         "/private")
  = ApiGateway.post (parse_table []) no_text no_text ""
      (fixed_fetch (Resolved not_found)) "/private" JsNull.
Proof.
  destruct (@get_post_agree (parse_table []) no_text no_text ""
              (fixed_fetch (Resolved not_found)) "/private" JsNull eq_refl)
    as (H & _).
  exact H.
Defined.

Lemma not_ok_never_resolves_scenario :
  exists err,
    ApiGateway.post (parse_table []) no_text no_text ""
      (fixed_fetch (Resolved not_found)) "/" JsNull = Rejected err.
Proof.
  destruct (@not_ok_never_resolves (parse_table []) no_text no_text ""
              (fixed_fetch (Resolved not_found)) "/" JsNull not_found
              (fun _ => eq_refl) eq_refl) as (_ & H).
  exact H.
Defined.

Lemma error_message_from_body_scenario :
  fst (ApiGateway.get
         (parse_table
            [("no such user", JsObject [("message", JsString "User not found")])])
         no_text "" (fixed_fetch (Resolved not_found)) "/")
  = Rejected (ThrownError "User not found").
Proof.
  assert (Hmessage : "User not found" <> "") by discriminate.
  exact (@error_message_from_body
           (parse_table
              [("no such user", JsObject [("message", JsString "User not found")])])
           no_text "" (fixed_fetch (Resolved not_found)) "/" "no such user"
           "User not found" not_found [("message", JsString "User not found")]
           eq_refl eq_refl eq_refl eq_refl eq_refl Hmessage).
Defined.

Lemma error_message_fallback_scenario :
  fst (ApiGateway.get (parse_table []) no_text ""
         (fixed_fetch (Resolved not_found)) "/")
  = Rejected (ThrownError "HTTP error 404: Not Found").
Proof.
  exact (@error_message_fallback (parse_table []) no_text ""
           (fixed_fetch (Resolved not_found)) "/" "no such user" not_found
           eq_refl eq_refl eq_refl
           (or_introl (ex_intro _ (ThrownError "Unexpected token") eq_refl))).
Defined.

Lemma empty_body_scenario :
  Repository.getBooks
    (fun p => fst (ApiGateway.get (parse_table []) no_text ""
                     (fixed_fetch (Resolved empty_ok)) p))
  = Resolved (JsArray []).
Proof.
  destruct (@empty_body (parse_table []) no_text no_text ""
              (fixed_fetch (Resolved empty_ok)) "/" JsNull empty_ok
              1700000000000 (1 # 4) "Dune" "Herbert"
              (fun _ => eq_refl) eq_refl eq_refl) as (_ & _ & H & _).
  exact H.
Defined.

(** ** From the server's response to the store *)

Section FullStack.

Variable G : Type.
Variable parse : string -> Outcome JsValue.
Variable stringify : JsValue -> string.
Variable toString : JsValue -> string.
Variable type_error_message : string.
Variable serve : ApiGateway.Request -> G -> Outcome ApiGateway.Response * G.
Variable now : G -> Z.
Variable random : G -> Q.

(** X24.  The store of the application, on a response to its list fetch that is
    not [ok] and whose body is not JSON: in mode "all" [error] ends with
    the gateway's message, "HTTP error" with the status and the status
    text or the body; in mode "private" [error] ends null.  In both modes
    [books] ends empty. *)
Theorem http_error_by_mode (s : BooksState) (g : G)
  (response : ApiGateway.Response) (errorText : string) :
  viewType s = "all" \/ viewType s = "private" ->
  fst (serve (ApiGateway.get_request
                (if viewType s =? "all" then "/" else "/private")) g)
  = Resolved response ->
  ApiGateway.ok response = false ->
  ApiGateway.text response = Resolved errorText ->
  (exists err, parse errorText = Rejected err) ->
  let x :=
    run (booksRepository
           (http_gateway parse stringify toString type_error_message serve
              now random))
      Store.loadBooks s g in
  books (final x) = [] /\
  isLoading (final x) = false /\
  error (final x)
  = if viewType s =? "all"
    then Some ("HTTP error " ++ ApiGateway.show_status (ApiGateway.status response)
               ++ ": "
               ++ or_string (ApiGateway.statusText response)
                    (or_string errorText "Unknown error"))%string
    else None.
Proof.
  destruct s as [bs ld er vt pc]; simpl.
  intros [-> | ->] Hserve Hok Htext [err Hparse]; cbn in Hserve |- *;
    unfold Repository.getBooks, Repository.getPrivateBooks, ApiGateway.get;
    cbn; rewrite Hserve; cbn; rewrite Hok; cbn; rewrite Htext; cbn;
    rewrite Hparse; cbn; split_all; reflexivity.
Qed.

End FullStack.

Lemma http_error_by_mode_scenario :
  error (final (run (booksRepository
                       (http_gateway (parse_table []) no_text no_text ""
                          (fun _ (n : nat) => (Resolved not_found, S n))
                          (fun _ => 1700000000000%Z) (fun _ => (1 # 4)%Q)))
                  Store.loadBooks initial_state 0))
  = Some "HTTP error 404: Not Found".
Proof.
  destruct (@http_error_by_mode nat (parse_table []) no_text no_text ""
              (fun _ (n : nat) => (Resolved not_found, S n))
              (fun _ => 1700000000000%Z) (fun _ => (1 # 4)%Q)
              initial_state 0 not_found "no such user"
              (or_introl eq_refl) eq_refl eq_refl eq_refl
              (ex_intro _ (ThrownError "Unexpected token") eq_refl))
    as (_ & _ & H).
  exact H.
Defined.

(** ** The view *)

Section ViewMore.

Variable type_error_message : string.

Local Abbreviation render := (BooksView.render type_error_message).
Local Abbreviation rows_from := (BooksView.rows_from type_error_message).

(** X25.  The list, or "No books found.", is on the screen exactly when neither
    banner is; the loading banner is on exactly when [isLoading] is true,
    and the Add button is disabled exactly then; the inputs show the
    component's local state. *)
Theorem list_shown_iff_no_banner (s : BooksState) (inputs : BooksView.Inputs)
  (screen : BooksView.Screen) :
  render s inputs = Resolved screen ->
  (BooksView.listing screen <> None
   <-> BooksView.loading_banner screen = false
       /\ BooksView.error_banner screen = None) /\
  BooksView.loading_banner screen = isLoading s /\
  BooksView.add_disabled screen = isLoading s /\
  BooksView.name_input screen = BooksView.newBookName inputs /\
  BooksView.author_input screen = BooksView.newBookAuthor inputs.
Proof.
  unfold BooksView.render.
  destruct (isLoading s) eqn:Hloading; cbn.
  - intros H; injection H as <-; cbn. split_all; try reflexivity.
    split; [intros H; now contradiction H | intros [H _]; discriminate H].
  - destruct (BooksView.shown_error (error s)) as [message |] eqn:Herror; cbn.
    + intros H; injection H as <-; cbn. split_all; try reflexivity.
      split; [intros H; now contradiction H | intros [_ H]; discriminate H].
    + destruct (books s) as [| book rest]; cbn.
      * intros H; injection H as <-; cbn. split_all; try reflexivity.
        split; [intros _; split; reflexivity | intros _; discriminate].
      * destruct (BooksView.row type_error_message 0 book) as [first | err];
          cbn; [| discriminate].
        destruct (BooksView.rows_from type_error_message 1 rest)
          as [others | err]; cbn; [| discriminate].
        intros H; injection H as <-; cbn. split_all; try reflexivity.
        split; [intros _; split; reflexivity | intros _; discriminate].
Qed.

(** X26.  A failure whose [Error] has an empty message cannot be seen: after a
    [loadBooks()] whose fetch rejected with it, [error] is the empty
    string, which the view takes for no error, so the screen has no
    banner and says "No books found.". *)
Theorem failure_without_message_not_shown (R : Type) (repo : BooksRepository R)
  (s : BooksState) (r : R) (inputs : BooksView.Inputs) :
  viewType s = "all" ->
  fst (repo_getBooks repo r) = Rejected (ThrownError "") ->
  let x := run repo Store.loadBooks s r in
  error (final x) = Some "" /\
  exists screen,
    render (final x) inputs = Resolved screen /\
    BooksView.error_banner screen = None /\
    BooksView.loading_banner screen = false /\
    BooksView.listing screen = Some BooksView.NoBooksFound.
Proof.
  destruct s as [bs ld er vt pc]; simpl. intros -> Hget. cbn.
  destruct (repo_getBooks repo r) as [o r1]; simpl in Hget; subst o. cbn.
  split; [reflexivity |]. eexists. split_all; reflexivity.
Qed.

Lemma rows_from_books (bs : list Book) :
  forall i, rows_from i (map Book_value bs) = Resolved (rows_of_books i bs).
Proof.
  induction bs as [| b rest IH]; intros i; [reflexivity |].
  cbn [map BooksView.rows_from rows_of_books]. rewrite IH.
  destruct b as [[id |] bname bauthor]; unfold row_of_book; cbn.
  - destruct (Qeq_bool (inject_Z id) 0); reflexivity.
  - reflexivity.
Qed.

Lemma rows_from_null (books : list JsValue) :
  In JsNull books ->
  forall i, rows_from i books = Rejected (ThrownError type_error_message).
Proof.
  induction books as [| book rest IH]; intros Hin i; [contradiction |].
  cbn [BooksView.rows_from].
  destruct Hin as [-> | Hin]; [reflexivity |].
  destruct book; cbn; try reflexivity; now rewrite (IH Hin).
Qed.

(** X27.  With books of type [Book] in the store and no banner, the screen
    shows one row per book, in the order of [books], with the book's
    author and name; a book with an [id] other than 0 is keyed by it, any
    other by its position. *)
Theorem render_books (s : BooksState) (inputs : BooksView.Inputs)
  (bs : list Book) :
  books s = map Book_value bs ->
  bs <> [] ->
  isLoading s = false ->
  BooksView.shown_error (error s) = None ->
  exists screen,
    render s inputs = Resolved screen /\
    BooksView.listing screen = Some (BooksView.Rows (rows_of_books 0 bs)).
Proof.
  intros Hbooks Hsome Hloading Herror. unfold BooksView.render.
  rewrite Hloading, Herror, Hbooks. cbn [negb andb].
  destruct bs as [| b rest]; [contradiction |].
  cbn [map]. change (Book_value b :: map Book_value rest)
    with (map Book_value (b :: rest)).
  rewrite rows_from_books. cbn. eexists. split; reflexivity.
Qed.

(** X28.  The store does not look at the elements of the array it is given; the
    view does: with a [null] among [books] and no banner on, rendering
    throws the [TypeError] of reading a property of [null]. *)
Theorem render_throws_on_null (s : BooksState) (inputs : BooksView.Inputs) :
  In JsNull (books s) ->
  isLoading s = false ->
  BooksView.shown_error (error s) = None ->
  render s inputs = Rejected (ThrownError type_error_message).
Proof.
  intros Hin Hloading Herror. unfold BooksView.render.
  rewrite Hloading, Herror. cbn [negb andb].
  destruct (books s) as [| book rest] eqn:Hbooks; [contradiction |].
  rewrite (rows_from_null (book :: rest) Hin). reflexivity.
Qed.

End ViewMore.

(** X29.  Clicking Add with an empty name or an empty author clears both inputs
    all the same: the store shows the validation message, nothing is sent,
    and what was typed in the other input is gone. *)
Theorem rejected_submit_clears_inputs (c : Config) (inputs : BooksView.Inputs) :
  BooksView.newBookName inputs = "" \/ BooksView.newBookAuthor inputs = "" ->
  let after := BooksView.handleAddBook c inputs in
  snd after = {| BooksView.newBookName := ""; BooksView.newBookAuthor := "" |} /\
  pending (fst after) = pending c /\
  error (store (fst after)) = Some "Book name and author cannot be empty." /\
  isLoading (store (fst after)) = isLoading (store c) /\
  books (store (fst after)) = books (store c).
Proof.
  intros Hempty. apply empty_guard in Hempty.
  unfold BooksView.handleAddBook, spawn, Store.addBook; cbn.
  rewrite Hempty; cbn. rewrite app_nil_r. split_all; reflexivity.
Qed.

(** X30.  Clicking Add with both inputs filled clears them and returns with the
    add in flight, carrying what was typed: [isLoading] is true, so the
    Add button is disabled, and [error] is null. *)
Theorem accepted_submit_in_flight (c : Config) (inputs : BooksView.Inputs) :
  BooksView.newBookName inputs <> "" -> BooksView.newBookAuthor inputs <> "" ->
  let after := BooksView.handleAddBook c inputs in
  snd after = {| BooksView.newBookName := ""; BooksView.newBookAuthor := "" |} /\
  map awaited (pending (fst after))
  = map awaited (pending c)
    ++ [AddBook (BooksView.newBookName inputs) (BooksView.newBookAuthor inputs)] /\
  isLoading (store (fst after)) = true /\
  error (store (fst after)) = None /\
  books (store (fst after)) = books (store c).
Proof.
  intros Hn Ha. apply nonempty_eqb in Hn, Ha.
  unfold BooksView.handleAddBook, spawn, Store.addBook; cbn.
  rewrite Hn, Ha; cbn. rewrite map_app. split_all; reflexivity.
Qed.

Lemma list_shown_iff_no_banner_scenario :
  BooksView.render "" showing_three name_only = Resolved three_rows_screen /\
  BooksView.listing three_rows_screen <> None /\
  BooksView.add_disabled three_rows_screen = false.
Proof.
  assert (Hrender : BooksView.render "" showing_three name_only
                    = Resolved three_rows_screen) by reflexivity.
  destruct (@list_shown_iff_no_banner "" showing_three name_only
              three_rows_screen Hrender) as (Hiff & _ & Hadd & _).
  split_all; [exact Hrender | apply Hiff; split; reflexivity | exact Hadd].
Defined.

Lemma failure_without_message_not_shown_scenario :
  error (final (run mute_repository Store.loadBooks initial_state 0)) = Some "" /\
  exists screen,
    BooksView.render "" (final (run mute_repository Store.loadBooks initial_state 0))
      name_only = Resolved screen /\
    BooksView.error_banner screen = None.
Proof.
  destruct (@failure_without_message_not_shown "" nat mute_repository
              initial_state 0 name_only eq_refl eq_refl)
    as (Herror & screen & Hrender & Hbanner & _).
  split; [exact Herror |]. exists screen. split; [exact Hrender | exact Hbanner].
Defined.

Lemma render_books_scenario :
  exists screen,
    BooksView.render "" showing_three name_only = Resolved screen /\
    BooksView.listing screen = Some (BooksView.Rows (rows_of_books 0 three_books)).
Proof.
  assert (Hsome : three_books <> []) by discriminate.
  exact (@render_books "" showing_three name_only three_books
           eq_refl Hsome eq_refl eq_refl).
Defined.

Lemma render_throws_on_null_scenario :
  BooksView.render "Cannot read properties of null" null_entry name_only
  = Rejected (ThrownError "Cannot read properties of null").
Proof.
  assert (Hin : In JsNull (books null_entry)).
  { right. right. left. reflexivity. }
  exact (@render_throws_on_null "Cannot read properties of null" null_entry
           name_only Hin eq_refl eq_refl).
Defined.

Lemma rejected_submit_clears_inputs_scenario :
  snd (BooksView.handleAddBook (idle initial_state) name_only)
  = {| BooksView.newBookName := ""; BooksView.newBookAuthor := "" |} /\
  pending (fst (BooksView.handleAddBook (idle initial_state) name_only)) = [].
Proof.
  destruct (@rejected_submit_clears_inputs (idle initial_state) name_only
              (or_intror eq_refl)) as (Hinputs & Hpending & _).
  split; [exact Hinputs | exact Hpending].
Defined.

Lemma accepted_submit_in_flight_scenario :
  map awaited (pending (fst (BooksView.handleAddBook (idle initial_state)
                               filled_form)))
  = [AddBook "Dune" "Herbert"] /\
  isLoading (store (fst (BooksView.handleAddBook (idle initial_state)
                           filled_form))) = true.
Proof.
  assert (Hn : BooksView.newBookName filled_form <> "") by discriminate.
  assert (Ha : BooksView.newBookAuthor filled_form <> "") by discriminate.
  destruct (@accepted_submit_in_flight (idle initial_state) filled_form Hn Ha)
    as (_ & Hpending & Hloading & _).
  split; [exact Hpending | exact Hloading].
Defined.
